(** * policy-files: upload orchestrator and document queries

    A shallow embedding of the Express service of this repository:

    - [Firebase]  : the lazily initialised bucket handle (src/firebase.js);
    - [Server]    : the [POST /upload] handler (src/server.js);
    - [Documents] : the [GET /documents/...] handlers (src/documents.js).

    External collaborators (the Firebase bucket, the Supabase client, the
    PostgreSQL pool, the clock and the uuid generator) are explicit values
    whose answers are data; the calls a request makes to the storage
    backends and the insert it sends are recorded, with their arguments, in
    its list of effects. *)

From Stdlib Require Import ZArith List Lia.
From Stdlib Require Import Strings.String Strings.Ascii.
From Stdlib Require Import Numbers.DecimalString.
From Stdlib Require Numbers.DecimalPos Numbers.DecimalZ.
From stdpp Require Import base decidable option list gmap strings sorting.

Open Scope string_scope.
Open Scope list_scope.
Open Scope stdpp_scope.

(** ** JavaScript values used by the handlers *)

Module Js.

(** A call into a collaborator either returns or raises an exception
    carrying a [message] (for an [await]ed promise: resolves or rejects). *)
Inductive Call (A : Type) : Type :=
| Returns (a : A)
| Throws (message : string).
Arguments Returns {A} a.
Arguments Throws {A} message.

(** Strings are sequences of bytes (the UTF-8 form of the JavaScript
    string). The only falsy string is the empty one. *)
Definition truthy (s : string) : bool := negb (String.eqb s EmptyString).

(** A property that may be [undefined] or [null]. *)
Definition truthyO (o : option string) : bool :=
  match o with Some s => truthy s | None => false end.

(** [a || b] on possibly missing strings. *)
Definition or (a b : option string) : option string :=
  if truthyO a then a else b.

(** [a || 'literal']. *)
Definition orDefault (a : option string) (d : string) : string :=
  match a with Some s => if truthy s then s else d | None => d end.

(** [n || 0] on a number. *)
Definition orZero (n : Z) : Z := if Z.eqb n 0 then 0%Z else n.

(** [String(n)] and [`${n}`] for an integer. *)
Definition toString (n : Z) : string := NilZero.string_of_int (Z.to_int n).

(** [toLowerCase] (and SQL [lower]) on the letters A-Z. Every literal the
    handlers compare a lower-cased string with is made of the letters
    a, c, d, e, h, l, n, o, p, r, s, t, u, y, z only, and no character
    outside A-Z lower-cases to one of these, so the comparisons below
    agree with the full Unicode mapping. *)
Definition lowerChar (c : ascii) : ascii :=
  let n := nat_of_ascii c in
  if (65 <=? n)%nat && (n <=? 90)%nat then ascii_of_nat (n + 32) else c.

Fixpoint toLowerCase (s : string) : string :=
  match s with
  | EmptyString => EmptyString
  | String c s' => String (lowerChar c) (toLowerCase s')
  end.

(** [s.replace(/^\/+/, '')]: drop every leading slash. *)
Fixpoint stripLeadingSlashes (s : string) : string :=
  match s with
  | String c s' =>
      if Ascii.eqb c "/" then stripLeadingSlashes s' else s
  | EmptyString => EmptyString
  end.

(** [s.replace(/\/$/, '')]: drop one trailing slash. *)
Fixpoint stripTrailingSlash (s : string) : string :=
  match s with
  | EmptyString => EmptyString
  | String c EmptyString => if Ascii.eqb c "/" then EmptyString else s
  | String c s' => String c (stripTrailingSlash s')
  end.

(** [encodeURIComponent]: the bytes of A-Z a-z 0-9 - _ . ! ~ * ' ( ) are
    kept, every other byte becomes [%XX] in upper-case hexadecimal. *)
Definition unreserved (c : ascii) : bool :=
  let n := nat_of_ascii c in
  ((65 <=? n)%nat && (n <=? 90)%nat)
  || ((97 <=? n)%nat && (n <=? 122)%nat)
  || ((48 <=? n)%nat && (n <=? 57)%nat)
  || bool_decide (c ∈ ["-"; "_"; "."; "!"; "~"; "*"; "'"; "("; ")"]%char).

Definition hexDigit (n : nat) : ascii :=
  ascii_of_nat (if (n <? 10)%nat then 48 + n else 55 + n).

Definition encodeChar (c : ascii) : string :=
  if unreserved c then String c EmptyString
  else
    let n := nat_of_ascii c in
    String "%" (String (hexDigit (n / 16)) (String (hexDigit (n mod 16)) EmptyString)).

Fixpoint encodeURIComponent (s : string) : string :=
  match s with
  | EmptyString => EmptyString
  | String c s' => encodeChar c +:+ encodeURIComponent s'
  end.

End Js.

Import Js.

(** ** The process environment and the shared collaborators *)

(** [process.env]: the variables read by the handlers. *)
Record Env := {
  SUPABASE_URL : option string;
  SUPABASE_BUCKET : option string;
  FIREBASE_STORAGE_BUCKET : option string
}.

(** The [{ data, error }] pair resolved by [createSignedUrl]. *)
Record SignedData := { signedUrl : string }.
Record SignedResult := {
  signed_data : option SignedData;
  signed_error : option string
}.

(** The Supabase client exported by [./supabase] ([null] when it is not
    configured; the module itself is not among the sources, so the client is
    taken as a value). Its two storage calls answer as a function of their
    arguments. *)
Record SupabaseClient := {
  (** [storage.from(bucket).upload(path, data, {contentType, upsert: false})]
      resolves [{ error }]. *)
  sb_upload : string -> string -> string -> string -> Call (option string);
  (** [storage.from(bucket).createSignedUrl(path, expiresIn)]. *)
  sb_createSignedUrl : string -> string -> Z -> Call SignedResult
}.

(** Calls that leave the process, in the order a request makes them. The
    handlers call no other operation of the storage clients (in particular
    none that removes an object) and send no other statement that changes
    the table. *)
Inductive Effect :=
| FirebaseWrite (bucket name contentType data : string)
| FirebaseGetSignedUrl (bucket name : string) (expires : Z)
| SupabaseUpload (bucket path data contentType : string)
| SupabaseCreateSignedUrl (bucket path : string) (expiresIn : Z)
| DatabaseInsert (id project_id filename file_path source status : string)
    (document_content : option string).

(** ** The relational store *)

Module Database.

(** A row of the [documents] table; nullable columns are options. *)
Record Document := {
  id : string;
  project_id : string;
  filename : option string;
  file_path : option string;
  source : option string;
  status : option string;
  document_content : option string;
  created_at : Z
}.

(** The [pg] pool: the table it reaches, the failure every statement
    sent to it meets (if any), and the store's clock for [created_at]. *)
Record Pool := {
  table : list Document;
  fault : option string;
  clock : Z
}.

(** [INSERT INTO documents (id, project_id, filename, file_path, source,
    status, document_content) VALUES ($1,...,$7) RETURNING *]. *)
Definition insertDocument (p : Pool)
    (id project_id filename file_path source status : string)
    (document_content : option string) : Pool * Call (list Document) :=
  match fault p with
  | Some e => (p, Throws e)
  | None =>
      let row := {| id := id; project_id := project_id;
                    filename := Some filename; file_path := Some file_path;
                    source := Some source; status := Some status;
                    document_content := document_content;
                    created_at := clock p |} in
      ({| table := table p ++ [row]; fault := fault p; clock := clock p |},
       Returns [row])
  end.

End Database.

(** ** src/firebase.js *)

Module Firebase.

(** The Cloud Storage bucket handle. Opening a write stream on one of its
    files and ending it with the data do not throw: the outcome of the write
    is the event the stream emits, [error] or [finish]. *)
Inductive StreamEvent :=
| StreamError (message : string)
| StreamFinish.

Record Bucket := {
  bucket_name : string;
  (** [file(name).createWriteStream({metadata}) ... end(data)]. *)
  fb_write : string -> string -> string -> StreamEvent;
  (** [file(name).getSignedUrl({action: 'read', expires})] resolves
      [[url]]. *)
  fb_getSignedUrl : string -> Z -> Call string
}.

(** What the Admin SDK and the credential loading give: the service
    account read from the environment ([None] when neither variable is set,
    or when parsing it failed), and the answer of
    [admin.initializeApp(...); admin.storage().bucket()]. *)
Record Sdk := {
  serviceAccount : option string;
  initializeApp : string -> string -> Call Bucket
}.

(** The module's two variables. *)
Record State := {
  initialized : bool;
  bucket : option Bucket
}.

Definition initial : State := {| initialized := false; bucket := None |}.

(** [initIfPossible()]; the second component is the exception that
    escapes, if any. *)
Definition initIfPossible (env : Env) (sdk : Sdk) (st : State)
  : State * option string :=
  if initialized st then (st, None)
  else
    match serviceAccount sdk with
    | None => ({| initialized := false; bucket := bucket st |}, None)
    | Some sa =>
        match initializeApp sdk sa (orDefault (FIREBASE_STORAGE_BUCKET env) "policy-file") with
        | Throws e => (st, Some e)
        | Returns b => ({| initialized := true; bucket := Some b |}, None)
        end
    end.

Definition notInitialized : string :=
  "Firebase Storage not initialized. Set FIREBASE_SERVICE_ACCOUNT or FIREBASE_SERVICE_ACCOUNT_PATH.".

(** [getBucket()]. *)
Definition getBucket (env : Env) (sdk : Sdk) (st : State)
  : State * Call Bucket :=
  match initIfPossible env sdk st with
  | (st', Some e) => (st', Throws e)
  | (st', None) =>
      match bucket st' with
      | None => (st', Throws notInitialized)
      | Some b => (st', Returns b)
      end
  end.

End Firebase.

(** ** src/server.js: [POST /upload] *)

Module Server.

(** [req.file] as multer's memory storage leaves it. *)
Record File := {
  originalname : string;
  mimetype : string;
  buffer : string
}.

(** The text fields of the multipart form the handler reads. *)
Record Form := {
  form_project_id : option string;
  form_projectId : option string
}.

Record Request := {
  file : option File;
  body : Form
}.

(** What the process holds besides the Firebase module state and the pool:
    its environment, the SDK, the Supabase client, and the values the
    request draws from the clock ([Date.now()] when the handler starts and
    again in the stream's [finish] callback) and from [uuidv4()]. *)
Record Process := {
  env : Env;
  sdk : Firebase.Sdk;
  supabase : option SupabaseClient;
  now_request : Z;
  now_finish : Z;
  uuid : string
}.

Inductive ResponseBody :=
| ErrorBody (error : string)
| StoredBody (name : string) (url : string)
| UploadedBody (document_id : string) (message : string) (name : string) (url : string).

Record Response := {
  status : Z;
  json : ResponseBody
}.

Record Outcome := {
  response : Response;
  effects : list Effect;
  firebase_after : Firebase.State;
  pool_after : option Database.Pool
}.

Definition reply (st : Z) (b : ResponseBody) (es : list Effect)
    (fb : Firebase.State) (pool : option Database.Pool) : Outcome :=
  {| response := {| status := st; json := b |}; effects := es;
     firebase_after := fb; pool_after := pool |}.

(** The [dest] template string. *)
Definition storedName (timestamp : Z) (originalName : string) : string :=
  toString timestamp +:+ "_" +:+ originalName.

(** The Supabase branch, entered from [catch (fbErr)] with a client. *)
Definition uploadToSupabase (p : Process) (sb : SupabaseClient)
    (fb : Firebase.State) (pool : option Database.Pool)
    (req : Request) (f : File) (dest : string) : Outcome :=
  match SUPABASE_BUCKET (env p) with
  | None => reply 500 (ErrorBody "SUPABASE_BUCKET not configured") [] fb pool
  | Some bucketName =>
    if negb (truthy bucketName)
    then reply 500 (ErrorBody "SUPABASE_BUCKET not configured") [] fb pool
    else
      let path := dest in
      let e1 := SupabaseUpload bucketName path (buffer f) (mimetype f) in
      match sb_upload sb bucketName path (buffer f) (mimetype f) with
      | Throws sbErr => reply 500 (ErrorBody sbErr) [e1] fb pool
      | Returns (Some upErr) => reply 500 (ErrorBody upErr) [e1] fb pool
      | Returns None =>
        let e2 := SupabaseCreateSignedUrl bucketName path (60 * 60) in
        match sb_createSignedUrl sb bucketName path (60 * 60) with
        | Throws sbErr => reply 500 (ErrorBody sbErr) [e1; e2] fb pool
        | Returns signed =>
          match signed_error signed with
          | Some signedErr => reply 500 (ErrorBody signedErr) [e1; e2] fb pool
          | None =>
            let projectId := Js.or (form_project_id (body req)) (form_projectId (body req)) in
            match projectId with
            | None => reply 400 (ErrorBody "project_id is required") [e1; e2] fb pool
            | Some projectId =>
              if negb (truthy projectId)
              then reply 400 (ErrorBody "project_id is required") [e1; e2] fb pool
              else
                match pool with
                | None => reply 500 (ErrorBody "DATABASE_URL not configured") [e1; e2] fb pool
                | Some pg =>
                  let id := uuid p in
                  let filename := originalname f in
                  let file_path := path in
                  let source := "Upload" in
                  let status := "pending" in
                  let document_content := @None string in
                  let e3 := DatabaseInsert id projectId filename file_path source status document_content in
                  match Database.insertDocument pg id projectId filename file_path source status document_content with
                  | (pg', Throws dbErr) =>
                      reply 500 (ErrorBody dbErr) [e1; e2; e3] fb (Some pg')
                  | (pg', Returns rows) =>
                    match rows, signed_data signed with
                    | [], _ =>
                        reply 500 (ErrorBody "Cannot read properties of undefined (reading 'id')")
                          [e1; e2; e3] fb (Some pg')
                    | _ :: _, None =>
                        reply 500 (ErrorBody "Cannot read properties of null (reading 'signedUrl')")
                          [e1; e2; e3] fb (Some pg')
                    | row :: _, Some signedData =>
                        reply 200
                          (UploadedBody (Database.id row) "upload successfully" path (signedUrl signedData))
                          [e1; e2; e3] fb (Some pg')
                    end
                  end
                end
            end
          end
        end
      end
  end.

(** The handler. The Firebase branch answers from the stream's [error] or
    [finish] callback; the handler itself has returned by then. *)
Definition upload (p : Process) (fb : Firebase.State)
    (pool : option Database.Pool) (req : Request) : Outcome :=
  match file req with
  | None => reply 400 (ErrorBody "No file uploaded") [] fb pool
  | Some f =>
    let originalName := originalname f in
    let timestamp := now_request p in
    let dest := storedName timestamp originalName in
    match Firebase.getBucket (env p) (sdk p) fb with
    | (fb', Returns bucket) =>
      let e1 := FirebaseWrite (Firebase.bucket_name bucket) dest (mimetype f) (buffer f) in
      match Firebase.fb_write bucket dest (mimetype f) (buffer f) with
      | Firebase.StreamError err => reply 500 (ErrorBody err) [e1] fb' pool
      | Firebase.StreamFinish =>
        let expires := (now_finish p + 60 * 60 * 1000)%Z in
        let e2 := FirebaseGetSignedUrl (Firebase.bucket_name bucket) dest expires in
        match Firebase.fb_getSignedUrl bucket dest expires with
        | Returns url => reply 200 (StoredBody dest url) [e1; e2] fb' pool
        | Throws err => reply 500 (ErrorBody err) [e1; e2] fb' pool
        end
      end
    | (fb', Throws fbErr) =>
      match supabase p with
      | None => reply 500 (ErrorBody fbErr) [] fb' pool
      | Some sb => uploadToSupabase p sb fb' pool req f dest
      end
    end
  end.

End Server.

(** ** src/documents.js: the [GET /documents/...] routes *)

Module Documents.

Import Database.

(** *** Plain objects used as dictionaries

    [summary] and every [status] record are created by the literal [{}], so
    reading a key that is not an own property falls back on the members of
    [Object.prototype]: for these twelve names the read yields a function
    (or, for [__proto__], the prototype object), which is truthy. The text
    is what [+] turns the member into when it is added to a number. *)
Definition objectPrototype : list (string * string) :=
  [ ("constructor", "function Object() { [native code] }");
    ("__defineGetter__", "function __defineGetter__() { [native code] }");
    ("__defineSetter__", "function __defineSetter__() { [native code] }");
    ("hasOwnProperty", "function hasOwnProperty() { [native code] }");
    ("__lookupGetter__", "function __lookupGetter__() { [native code] }");
    ("__lookupSetter__", "function __lookupSetter__() { [native code] }");
    ("isPrototypeOf", "function isPrototypeOf() { [native code] }");
    ("propertyIsEnumerable", "function propertyIsEnumerable() { [native code] }");
    ("toString", "function toString() { [native code] }");
    ("valueOf", "function valueOf() { [native code] }");
    ("__proto__", "[object Object]");
    ("toLocaleString", "function toLocaleString() { [native code] }") ].

Fixpoint assoc (k : string) (l : list (string * string)) : option string :=
  match l with
  | [] => None
  | (k', v) :: l' => if String.eqb k k' then Some v else assoc k l'
  end.

(** The result of [obj[key]]. *)
Inductive Property (A : Type) : Type :=
| Own (value : A)
| Inherited (text : string)
| Undefined.
Arguments Own {A} value.
Arguments Inherited {A} text.
Arguments Undefined {A}.

Definition get {A : Type} (obj : gmap string A) (key : string) : Property A :=
  match obj !! key with
  | Some a => Own a
  | None =>
      match assoc key objectPrototype with
      | Some t => Inherited t
      | None => Undefined
      end
  end.

(** [obj[key] = v] for a primitive [v]: an own property is written, except
    under the name [__proto__], whose setter ignores a value that is not an
    object. *)
Definition set {A : Type} (obj : gmap string A) (key : string) (v : A) : gmap string A :=
  if String.eqb key "__proto__" then obj else <[key := v]> obj.

(** *** Responses *)

(** The columns [/scraped] projects. *)
Record ScrapedRow := {
  scraped_id : string;
  file_name : option string;
  scraped_created_at : Z;
  scraped_status : option string
}.

(** A slot of a [status] record: a number, or a string once [+] has
    concatenated. *)
Inductive Slot :=
| Num (n : Z)
| Text (s : string).

(** [{ status: {...}, total }]. *)
Record SourceSummary := {
  by_status : gmap string Slot;
  total : Z
}.

Inductive ResponseBody :=
| ErrorBody (error : string)
| DocumentsBody (documents : list Document)
| ScrapedBody (documents : list ScrapedRow)
| PreviewBody (preview_url : string)
| SummaryBody (sources : gmap string SourceSummary)
    (total_processed total_analysed total : Z).

Record Response := {
  status : Z;
  json : ResponseBody
}.

Definition reply (st : Z) (b : ResponseBody) : Response :=
  {| status := st; json := b |}.

(** *** The statements sent to the pool *)

Section Queries.

(** The collation [ORDER BY filename] sorts text with (a property of the
    database, not of the sources). *)
Context (collate : relation string) `{!RelDecision collate}.

(** Ascending order on a nullable text column: NULLs come last. *)
Definition nullsLast (a b : option string) : Prop :=
  match a, b with
  | Some x, Some y => collate x y
  | _, None => True
  | None, Some _ => False
  end.

#[global] Instance nullsLast_dec : RelDecision nullsLast.
Proof.
  intros [x|] [y|]; simpl; apply _.
Defined.

(** The order of [ORDER BY filename] on rows. *)
Definition filenameLe (a b : Document) : Prop :=
  nullsLast (filename a) (filename b).

#[global] Instance filenameLe_dec : RelDecision filenameLe.
Proof.
  intros a b. unfold filenameLe. apply _.
Defined.

(** [lower(source) IN (names)]; NULL is in no list. *)
Definition lowerSourceIn (names : list string) (d : Document) : bool :=
  match source d with
  | None => false
  | Some s => bool_decide (toLowerCase s ∈ names)
  end.

(** A statement sent to the pool meets the pool's fault, or is answered
    from the table. *)
Definition query {A : Type} (p : Pool) (answer : list Document -> A) : Call A :=
  match fault p with
  | Some e => Throws e
  | None => Returns (answer (table p))
  end.

(** [SELECT * FROM documents WHERE project_id = $1 AND lower(source) IN
    ('upload','other') ORDER BY filename]. *)
Definition selectUploadOrOther (projectId : string) (t : list Document) : list Document :=
  merge_sort filenameLe
    (filter (λ d, project_id d = projectId ∧ lowerSourceIn ["upload"; "other"] d = true) t).

Definition project (d : Document) : ScrapedRow :=
  {| scraped_id := id d; file_name := filename d;
     scraped_created_at := created_at d; scraped_status := Database.status d |}.

(** [SELECT id, filename AS file_name, created_at, status FROM documents
    WHERE project_id = $1 AND lower(source) = 'scrape' ORDER BY filename]. *)
Definition selectScraped (projectId : string) (t : list Document) : list ScrapedRow :=
  project <$> merge_sort filenameLe
    (filter (λ d, project_id d = projectId ∧ lowerSourceIn ["scrape"] d = true) t).

(** [SELECT * FROM documents WHERE id = $1]. *)
Definition selectById (docId : string) (t : list Document) : list Document :=
  filter (λ d, id d = docId) t.

(** *** [GET /documents/project/:project_id/upload-or-other] *)
Definition uploadOrOther (pool : option Pool) (projectId : string) : Response :=
  if negb (truthy projectId) then reply 400 (ErrorBody "project_id is required")
  else
    match pool with
    | None => reply 500 (ErrorBody "DATABASE_URL not configured")
    | Some pg =>
        match query pg (selectUploadOrOther projectId) with
        | Throws err => reply 500 (ErrorBody err)
        | Returns rows => reply 200 (DocumentsBody rows)
        end
    end.

(** *** [GET /documents/project/:project_id/scraped] *)
Definition scraped (pool : option Pool) (projectId : string) : Response :=
  if negb (truthy projectId) then reply 400 (ErrorBody "project_id is required")
  else
    match pool with
    | None => reply 500 (ErrorBody "DATABASE_URL not configured")
    | Some pg =>
        match query pg (selectScraped projectId) with
        | Throws err => reply 500 (ErrorBody err)
        | Returns rows => reply 200 (ScrapedBody rows)
        end
    end.

End Queries.

(** *** [GET /documents/scrape/:document_id] *)

(** The path both branches derive from the row: [filename] without its
    leading slashes. *)
Definition normalize (filename : string) : string := stripLeadingSlashes filename.

Definition publicUrl (supabaseUrl bucket normalized : string) : string :=
  stripTrailingSlash supabaseUrl +:+ "/storage/v1/object/public/" +:+ bucket
    +:+ "/" +:+ encodeURIComponent normalized.

Definition mediaUrl (fbBucket normalized : string) : string :=
  "https://firebasestorage.googleapis.com/v0/b/" +:+ fbBucket +:+ "/o/"
    +:+ encodeURIComponent normalized +:+ "?alt=media".

(** The part of the handler that follows the lookup of [doc]. *)
Definition previewOf (env : Env) (supabase : option SupabaseClient)
    (doc : Document) : Response * list Effect :=
  let filename := orDefault (Database.filename doc) EmptyString in
  if negb (truthy filename)
  then (reply 500 (ErrorBody "Document filename not found in database"), [])
  else
    let fromFirebase :=
      match FIREBASE_STORAGE_BUCKET env with
      | Some fbBucket =>
          if truthy fbBucket
          then (reply 200 (PreviewBody (mediaUrl fbBucket (normalize filename))), [])
          else (reply 500 (ErrorBody "Storage not configured for preview URL generation"), [])
      | None => (reply 500 (ErrorBody "Storage not configured for preview URL generation"), [])
      end in
    match supabase, SUPABASE_URL env, SUPABASE_BUCKET env with
    | Some sb, Some supabaseUrl, Some bucket =>
        if truthy supabaseUrl && truthy bucket then
          let normalized := normalize filename in
          let e := SupabaseCreateSignedUrl bucket normalized 3600 in
          match sb_createSignedUrl sb bucket normalized 3600 with
          | Throws msg =>
              (reply 500 (ErrorBody ("Failed to generate preview URL: " +:+ msg)), [e])
          | Returns signed =>
              match signed_error signed, signed_data signed with
              | None, Some signedData =>
                  if truthy (signedUrl signedData)
                  then (reply 200 (PreviewBody (signedUrl signedData)), [e])
                  else (reply 200 (PreviewBody (publicUrl supabaseUrl bucket normalized)), [e])
              | _, _ =>
                  (reply 200 (PreviewBody (publicUrl supabaseUrl bucket normalized)), [e])
              end
          end
        else fromFirebase
    | _, _, _ => fromFirebase
    end.

Definition getPreviewUrl (env : Env) (supabase : option SupabaseClient)
    (pool : option Pool) (id : string) : Response * list Effect :=
  if negb (truthy id) then (reply 400 (ErrorBody "document_id is required"), [])
  else
    match pool with
    | None => (reply 500 (ErrorBody "DATABASE_URL not configured"), [])
    | Some pg =>
        match query pg (selectById id) with
        | Throws err => (reply 500 (ErrorBody err), [])
        | Returns [] => (reply 404 (ErrorBody "document not found"), [])
        | Returns (doc :: _) => previewOf env supabase doc
        end
    end.

(** *** [GET /documents/project/:project_id/summary] *)

(** A row of the aggregate: [source], [status] and [COUNT( * )::int]. *)
Record CountRow := {
  row_source : option string;
  row_status : option string;
  count : Z
}.

(** [GROUP BY source, status] with [COUNT( * )]: one more document in the
    group of its pair (NULLs form groups of their own). *)
Fixpoint tally (src st : option string) (groups : list CountRow) : list CountRow :=
  match groups with
  | [] => [{| row_source := src; row_status := st; count := 1 |}]
  | g :: groups' =>
      if decide (row_source g = src ∧ row_status g = st)
      then {| row_source := src; row_status := st; count := count g + 1 |} :: groups'
      else g :: tally src st groups'
  end.

(** [SELECT source, status, COUNT( * )::int AS count FROM documents WHERE
    project_id = $1 GROUP BY source, status]. *)
Definition selectCounts (projectId : string) (t : list Document) : list CountRow :=
  foldl (λ groups d, tally (source d) (Database.status d) groups) []
    (filter (λ d, project_id d = projectId) t).

(** The variables of the loop. *)
Record Totals := {
  summary : gmap string SourceSummary;
  total_processed : Z;
  total_analysed : Z;
  total_all : Z
}.

Definition start : Totals :=
  {| summary := ∅; total_processed := 0; total_analysed := 0; total_all := 0 |}.

(** [(slot || 0) + cnt]. *)
Definition plus (slot : Property Slot) (cnt : Z) : Slot :=
  match slot with
  | Undefined => Num (0 + cnt)
  | Own (Num n) => Num (orZero n + cnt)
  | Own (Text s) => if truthy s then Text (s +:+ toString cnt) else Num (0 + cnt)
  | Inherited t => Text (t +:+ toString cnt)
  end.

(** One turn of [for (const r of rows)]. Reading [.status] of an inherited
    member gives [undefined], and indexing that raises a [TypeError]. *)
Definition step (acc : Totals) (r : CountRow) : Call Totals :=
  let src := orDefault (row_source r) "unknown" in
  let status := orDefault (row_status r) "unknown" in
  let cnt := orZero (count r) in
  let total_all' := (total_all acc + cnt)%Z in
  let summary1 :=
    match get (summary acc) src with
    | Undefined => <[src := {| by_status := ∅; total := 0 |}]> (summary acc)
    | _ => summary acc
    end in
  match get summary1 src with
  | Own entry =>
      let status1 := set (by_status entry) status (plus (get (by_status entry) status) cnt) in
      let entry' := {| by_status := status1; total := total entry + cnt |} in
      let lowered := toLowerCase status in
      Returns
        {| summary := <[src := entry']> summary1;
           total_processed :=
             if String.eqb lowered "processed"
             then total_processed acc + cnt else total_processed acc;
           total_analysed :=
             if String.eqb lowered "analysed" || String.eqb lowered "analyzed"
             then total_analysed acc + cnt else total_analysed acc;
           total_all := total_all' |}
  | Inherited _ =>
      Throws ("Cannot read properties of undefined (reading '" +:+ status +:+ "')")
  | Undefined =>
      Throws "Cannot read properties of undefined (reading 'status')"
  end.

Fixpoint loop (acc : Totals) (rows : list CountRow) : Call Totals :=
  match rows with
  | [] => Returns acc
  | r :: rows' =>
      match step acc r with
      | Throws e => Throws e
      | Returns acc' => loop acc' rows'
      end
  end.

(** The handler once the aggregate has answered [rows]. *)
Definition summarize (rows : list CountRow) : Response :=
  match loop start rows with
  | Throws err => reply 500 (ErrorBody err)
  | Returns t =>
      reply 200 (SummaryBody (summary t) (total_processed t) (total_analysed t) (total_all t))
  end.

Definition getSummary (pool : option Pool) (projectId : string) : Response :=
  if negb (truthy projectId) then reply 400 (ErrorBody "project_id is required")
  else
    match pool with
    | None => reply 500 (ErrorBody "DATABASE_URL not configured")
    | Some pg =>
        match fault pg with
        | Some err => reply 500 (ErrorBody err)
        | None => summarize (selectCounts projectId (table pg))
        end
    end.

End Documents.


(** ** Classifying effects *)

Definition isStorageWrite (e : Effect) : bool :=
  match e with
  | FirebaseWrite _ _ _ _ | SupabaseUpload _ _ _ _ => true
  | _ => false
  end.

Definition isFirebaseCall (e : Effect) : bool :=
  match e with
  | FirebaseWrite _ _ _ _ | FirebaseGetSignedUrl _ _ _ => true
  | _ => false
  end.

Definition isSupabaseUpload (e : Effect) : bool :=
  match e with SupabaseUpload _ _ _ _ => true | _ => false end.

Definition isInsert (e : Effect) : bool :=
  match e with DatabaseInsert _ _ _ _ _ _ _ => true | _ => false end.

(** How many effects of a list satisfy a test. *)
Definition occurrences (test : Effect -> bool) (es : list Effect) : nat :=
  length (List.filter test es).

(** ** Conditions on an upload request *)

Module Upload.

Import Server.

(** The key the request stores its file under. *)
Definition dest (p : Process) (f : File) : string :=
  storedName (now_request p) (originalname f).

(** The Primary client is unavailable: [getBucket()] throws. *)
Definition primaryUnavailable (p : Process) (fb : Firebase.State) : Prop :=
  ∃ fb' fbErr, Firebase.getBucket (env p) (sdk p) fb = (fb', Throws fbErr).

(** The Primary write fails: the client is unavailable, or the write
    stream of the file emits [error]. *)
Definition primaryWriteFails (p : Process) (fb : Firebase.State) (f : File) : Prop :=
  primaryUnavailable p fb
  ∨ ∃ fb' b err,
      Firebase.getBucket (env p) (sdk p) fb = (fb', Returns b)
      ∧ Firebase.fb_write b (dest p f) (mimetype f) (buffer f) = Firebase.StreamError err.

(** A Fallback backend is configured: the client and its bucket name. *)
Definition fallbackConfigured (p : Process) (sb : SupabaseClient) (bucketName : string) : Prop :=
  supabase p = Some sb ∧ SUPABASE_BUCKET (env p) = Some bucketName ∧ truthy bucketName = true.

(** The Fallback write succeeds: the upload of the file resolves without
    [error]. *)
Definition fallbackWriteSucceeds (p : Process) (sb : SupabaseClient)
    (bucketName : string) (f : File) : Prop :=
  sb_upload sb bucketName (dest p f) (buffer f) (mimetype f) = Returns None.

(** Signed-URL generation succeeds with [url]. *)
Definition signingSucceeds (p : Process) (sb : SupabaseClient)
    (bucketName : string) (f : File) (url : string) : Prop :=
  sb_createSignedUrl sb bucketName (dest p f) 3600
  = Returns {| signed_data := Some {| signedUrl := url |}; signed_error := None |}.

(** The [projectId] the handler reads from the form. *)
Definition projectIdOf (req : Request) : option string :=
  Js.or (form_project_id (body req)) (form_projectId (body req)).

(** The request attempts the Fallback backend. *)
Definition attemptsFallback (o : Outcome) : Prop :=
  occurrences isSupabaseUpload (effects o) ≠ 0.

End Upload.

(** ** Sample collaborators and requests *)

Module Samples.

Import Server.

Definition environment : Env :=
  {| SUPABASE_URL := Some "https://project.supabase.co/";
     SUPABASE_BUCKET := Some "policies";
     FIREBASE_STORAGE_BUCKET := Some "policy-file" |}.

(** No credentials: [serviceAccount] stays undefined. *)
Definition noCredentials : Firebase.Sdk :=
  {| Firebase.serviceAccount := None;
     Firebase.initializeApp := λ _ _, Throws "unreachable" |}.

(** A bucket whose write streams emit [error]. *)
Definition rejectingBucket : Firebase.Bucket :=
  {| Firebase.bucket_name := "policy-file";
     Firebase.fb_write := λ _ _ _, Firebase.StreamError "quota exceeded";
     Firebase.fb_getSignedUrl := λ name _, Returns ("https://storage.googleapis.com/" +:+ name) |}.

(** A bucket that stores and signs. *)
Definition acceptingBucket : Firebase.Bucket :=
  {| Firebase.bucket_name := "policy-file";
     Firebase.fb_write := λ _ _ _, Firebase.StreamFinish;
     Firebase.fb_getSignedUrl := λ name _, Returns ("https://storage.googleapis.com/" +:+ name) |}.

Definition credentialsFor (b : Firebase.Bucket) : Firebase.Sdk :=
  {| Firebase.serviceAccount := Some "service-account";
     Firebase.initializeApp := λ _ _, Returns b |}.

(** A Supabase client that stores and signs. *)
Definition client : SupabaseClient :=
  {| sb_upload := λ _ _ _ _, Returns None;
     sb_createSignedUrl := λ bucket path _,
       Returns {| signed_data := Some {| signedUrl := "https://signed/" +:+ bucket +:+ "/" +:+ path |};
                  signed_error := None |} |}.

(** A Supabase client that stores but answers every signing request with
    an error. *)
Definition unsigningClient : SupabaseClient :=
  {| sb_upload := λ _ _ _ _, Returns None;
     sb_createSignedUrl := λ _ _ _,
       Returns {| signed_data := None; signed_error := Some "signing denied" |} |}.

(** A Supabase client that stores but whose signing requests reject: the
    promise of [createSignedUrl] throws at the [await]. *)
Definition throwingClient : SupabaseClient :=
  {| sb_upload := λ _ _ _ _, Returns None;
     sb_createSignedUrl := λ _ _ _, Throws "fetch failed" |}.

Definition processWith (s : Firebase.Sdk) (sb : option SupabaseClient) : Process :=
  {| env := environment; sdk := s; supabase := sb;
     now_request := 1700000000000; now_finish := 1700000000250;
     uuid := "0b5c6c4e-6f0e-4a57-9d3b-2f1a3c9d7e10" |}.

Definition report : File :=
  {| originalname := "report.pdf"; mimetype := "application/pdf"; buffer := "%PDF-1.7" |}.

Definition requestFor (projectId : option string) : Request :=
  {| file := Some report;
     body := {| form_project_id := projectId; form_projectId := None |} |}.

Definition emptyRequest : Request :=
  {| file := None; body := {| form_project_id := Some "p1"; form_projectId := None |} |}.

Definition store : Database.Pool :=
  {| Database.table := []; Database.fault := None; Database.clock := 1700000000300 |}.

(** A pool whose statements all fail. *)
Definition unreachableStore : Database.Pool :=
  {| Database.table := []; Database.fault := Some "connection refused";
     Database.clock := 1700000000300 |}.

End Samples.

(** ** Conditions on the document routes *)

Module Listing.

Import Database.

(** The row's [source], lower-cased, is one of [names]. *)
Definition sourceIs (names : list string) (d : Document) : Prop :=
  match source d with
  | Some s => toLowerCase s ∈ names
  | None => False
  end.

#[global] Instance sourceIs_dec names d : Decision (sourceIs names d).
Proof.
  unfold sourceIs. destruct (source d); apply _.
Defined.

(** The rows a listing of [projectId] restricted to [names] is about. *)
Definition wanted (projectId : string) (names : list string) (d : Document) : Prop :=
  project_id d = projectId ∧ sourceIs names d.

#[global] Instance wanted_dec projectId names d : Decision (wanted projectId names d).
Proof.
  unfold wanted. apply _.
Defined.

(** Sample rows of two projects. *)
Definition row (i p : string) (f s : option string) : Document :=
  {| id := i; project_id := p; filename := f;
     file_path := None; source := s; status := Some "pending";
     document_content := None; created_at := 1700000000000 |}.

Definition sampleTable : list Document :=
  [ row "d1" "p1" (Some "zoning.pdf") (Some "Upload");
    row "d2" "p1" (Some "audit.pdf") (Some "SCRAPE");
    row "d3" "p1" (Some "budget.pdf") (Some "other");
    row "d4" "p2" (Some "charter.pdf") (Some "upload");
    row "d5" "p1" None (Some "Scrape");
    row "d6" "p1" (Some "minutes.pdf") None ].

Definition samplePool : Pool :=
  {| table := sampleTable; fault := None; clock := 1700000000400 |}.

End Listing.

Module Preview.

Import Database Documents.

(** The Supabase branch is open: a client, [SUPABASE_URL] and
    [SUPABASE_BUCKET] are all set. *)
Definition supabaseConfigured (env : Env) (supabase : option SupabaseClient)
    (sb : SupabaseClient) (supabaseUrl bucket : string) : Prop :=
  supabase = Some sb
  ∧ SUPABASE_URL env = Some supabaseUrl ∧ truthy supabaseUrl = true
  ∧ SUPABASE_BUCKET env = Some bucket ∧ truthy bucket = true.

Definition supabaseUnconfigured (env : Env) (supabase : option SupabaseClient) : Prop :=
  supabase = None
  ∨ truthyO (SUPABASE_URL env) = false
  ∨ truthyO (SUPABASE_BUCKET env) = false.

(** The Firebase bucket name is set. *)
Definition firebaseConfigured (env : Env) (fbBucket : string) : Prop :=
  FIREBASE_STORAGE_BUCKET env = Some fbBucket ∧ truthy fbBucket = true.

(** The signing request is answered with a signed URL. *)
Definition signed (answer : Call SignedResult) (url : string) : Prop :=
  answer = Returns {| signed_data := Some {| signedUrl := url |}; signed_error := None |}
  ∧ truthy url = true.

(** The signing request resolves, but declines: its answer carries an
    [error], or no signed URL, so that
    [!signedErr && signedData && signedData.signedUrl] is false. *)
Definition signingDeclined (answer : Call SignedResult) : Prop :=
  ∃ result,
    answer = Returns result
    ∧ (is_Some (signed_error result)
       ∨ signed_data result = None
       ∨ (signedUrl <$> signed_data result) = Some EmptyString).

(** The signing request rejects: [await createSignedUrl(...)] throws [msg]. *)
Definition signingRejected (answer : Call SignedResult) (msg : string) : Prop :=
  answer = Throws msg.

(** A signing failure: the request yields no signed URL, one way or the
    other. *)
Definition signingFailed (answer : Call SignedResult) : Prop :=
  signingDeclined answer ∨ ∃ msg, signingRejected answer msg.

(** No row of the table has this id. *)
Definition unknown (pg : Pool) (docId : string) : Prop :=
  Forall (λ d, id d ≠ docId) (table pg).

(** The same row with another [file_path]. *)
Definition withFilePath (g : Document → option string) (d : Document) : Document :=
  {| id := id d; project_id := project_id d; filename := filename d;
     file_path := g d; source := source d; Database.status := Database.status d;
     document_content := document_content d; created_at := created_at d |}.

Definition rewritePaths (g : Document → option string) (pg : Pool) : Pool :=
  {| table := withFilePath g <$> table pg; fault := fault pg; clock := clock pg |}.

(** A signing request made within the hour rule: Firebase is given the
    instant [generated + 3600 s] in milliseconds, Supabase the duration
    3600 s. *)
Definition expiresInOneHour (generated : Z) (e : Effect) : Prop :=
  match e with
  | FirebaseGetSignedUrl _ _ expires => expires = (generated + 3600 * 1000)%Z
  | SupabaseCreateSignedUrl _ _ expiresIn => expiresIn = 3600%Z
  | _ => True
  end.

(** A signing request, if [e] is one, is made for [path]. *)
Definition signsPath (path : string) (e : Effect) : Prop :=
  match e with
  | FirebaseGetSignedUrl _ name _ => name = path
  | SupabaseCreateSignedUrl _ p _ => p = path
  | _ => True
  end.

(** An insert, if [e] is one, stores [file_path = <timestamp>_<filename>],
    the key under which [written] holds the upload of the bytes. *)
Definition insertsStoredKey (timestamp : Z) (written : list Effect) (e : Effect) : Prop :=
  match e with
  | DatabaseInsert _ _ filename file_path _ _ _ =>
      file_path = Server.storedName timestamp filename
      ∧ ∃ bucket data contentType,
          In (SupabaseUpload bucket file_path data contentType) written
  | _ => True
  end.

(** A row as the upload handler inserts it, and a client that fails to
    sign. *)
Definition uploaded : Document :=
  {| id := "0b5c6c4e-6f0e-4a57-9d3b-2f1a3c9d7e10"; project_id := "p1";
     filename := Some "/reports/q1.pdf";
     file_path := Some "1700000000000_/reports/q1.pdf";
     source := Some "Upload"; Database.status := Some "pending";
     document_content := None; created_at := 1700000000300 |}.

Definition samplePool : Pool :=
  {| table := [uploaded]; fault := None; clock := 1700000000400 |}.

End Preview.

Module Summary.

Import Documents.

(** The labels a row is bucketed under. *)
Definition sourceLabel (r : CountRow) : string := orDefault (row_source r) "unknown".
Definition statusLabel (r : CountRow) : string := orDefault (row_status r) "unknown".

(** A name every plain object inherits from [Object.prototype]. *)
Definition inherited (key : string) : Prop := is_Some (assoc key objectPrototype).

(** A row neither label of which is such a name. *)
Definition plain (r : CountRow) : Prop :=
  ¬ inherited (sourceLabel r) ∧ ¬ inherited (statusLabel r).

(** The sum of the counts of rows, and of those that satisfy [P]. *)
Definition sumCounts (rows : list CountRow) : Z := foldr Z.add 0%Z (count <$> rows).

Definition counted (P : CountRow → Prop) `{!∀ r, Decision (P r)} (rows : list CountRow) : Z :=
  sumCounts (filter P rows).

(** The status, whatever its case, is [processed]; is [analysed] or
    [analyzed]. *)
Definition isProcessed (r : CountRow) : Prop :=
  toLowerCase (statusLabel r) = "processed".

Definition isAnalysed (r : CountRow) : Prop :=
  toLowerCase (statusLabel r) = "analysed" ∨ toLowerCase (statusLabel r) = "analyzed".

Definition fromSource (src : string) (r : CountRow) : Prop := sourceLabel r = src.

Definition labelled (src st : string) (r : CountRow) : Prop :=
  sourceLabel r = src ∧ statusLabel r = st.

#[global] Instance isProcessed_dec r : Decision (isProcessed r).
Proof.
  unfold isProcessed. apply _.
Defined.

#[global] Instance isAnalysed_dec r : Decision (isAnalysed r).
Proof.
  unfold isAnalysed. apply _.
Defined.

#[global] Instance fromSource_dec src r : Decision (fromSource src r).
Proof.
  unfold fromSource. apply _.
Defined.

#[global] Instance labelled_dec src st r : Decision (labelled src st r).
Proof.
  unfold labelled. apply _.
Defined.

(** The number a slot contributes to a sum of per-status counts. *)
Definition slotCount (s : Slot) : Z :=
  match s with
  | Num n => n
  | Text _ => 0%Z
  end.

(** The sum of [f] over the values of a record. *)
Definition sumOver {A : Type} (f : A → Z) (m : gmap string A) : Z :=
  map_fold (λ _ a acc, (f a + acc)%Z) 0%Z m.

(** The entry of a source, a fresh one if it has none yet, and the number
    in a slot of it. *)
Definition entryOf (m : gmap string SourceSummary) (src : string) : SourceSummary :=
  default {| by_status := ∅; total := 0 |} (m !! src).

Definition slotOf (e : SourceSummary) (st : string) : Z :=
  match by_status e !! st with
  | Some v => slotCount v
  | None => 0%Z
  end.

(** What one turn of the loop does to the variables on a plain row. *)
Definition stepPlain (acc : Totals) (r : CountRow) : Totals :=
  let e := entryOf (summary acc) (sourceLabel r) in
  {| summary :=
       <[sourceLabel r :=
           {| by_status :=
                <[statusLabel r := Num (slotOf e (statusLabel r) + count r)]> (by_status e);
              total := total e + count r |}]> (summary acc);
     total_processed :=
       if decide (isProcessed r) then total_processed acc + count r else total_processed acc;
     total_analysed :=
       if decide (isAnalysed r) then total_analysed acc + count r else total_analysed acc;
     total_all := total_all acc + count r |}.

(** The variables of the loop describe the rows [pre] read so far. *)
Record Summarizes (pre : list CountRow) (acc : Totals) : Prop := {
  sum_all : total_all acc = sumCounts pre;
  sum_processed : total_processed acc = counted isProcessed pre;
  sum_analysed : total_analysed acc = counted isAnalysed pre;
  sum_sources : sumOver total (summary acc) = sumCounts pre;
  sources_dom : ∀ src,
    is_Some (summary acc !! src) ↔ ∃ r, r ∈ pre ∧ fromSource src r;
  source_total : ∀ src e,
    summary acc !! src = Some e → total e = counted (fromSource src) pre;
  source_sum : ∀ src e,
    summary acc !! src = Some e → sumOver slotCount (by_status e) = total e;
  status_dom : ∀ src e st,
    summary acc !! src = Some e →
    is_Some (by_status e !! st) ↔ ∃ r, r ∈ pre ∧ labelled src st r;
  status_count : ∀ src e st v,
    summary acc !! src = Some e → by_status e !! st = Some v →
    v = Num (counted (labelled src st) pre)
}.

(** The rows of the spec's example, and rows whose labels are inherited
    names. *)
Definition exampleRows : list CountRow :=
  [ {| row_source := Some "A"; row_status := Some "processed"; count := 3 |};
    {| row_source := Some "A"; row_status := Some "analysed"; count := 2 |};
    {| row_source := Some "B"; row_status := Some "pending"; count := 1 |} ].

Definition protoStatusRows : list CountRow :=
  [ {| row_source := Some "Upload"; row_status := Some "__proto__"; count := 3 |} ].

Definition constructorSourceRows : list CountRow :=
  [ {| row_source := Some "constructor"; row_status := Some "pending"; count := 1 |} ].

End Summary.

(** ** src/server.js: the revision of [POST /upload] without persistence

    The sources keep, after src/documents.js, the revision of the handler
    that precedes the [documents] table: the same Firebase branch, and a
    Supabase branch that answers [{ name, url }] once the URL is signed. *)

Module Earlier.

Import Server.

Definition uploadToSupabase (p : Process) (sb : SupabaseClient)
    (fb : Firebase.State) (pool : option Database.Pool)
    (f : File) (dest : string) : Outcome :=
  match SUPABASE_BUCKET (env p) with
  | None => reply 500 (ErrorBody "SUPABASE_BUCKET not configured") [] fb pool
  | Some bucketName =>
    if negb (truthy bucketName)
    then reply 500 (ErrorBody "SUPABASE_BUCKET not configured") [] fb pool
    else
      let path := dest in
      let e1 := SupabaseUpload bucketName path (buffer f) (mimetype f) in
      match sb_upload sb bucketName path (buffer f) (mimetype f) with
      | Throws sbErr => reply 500 (ErrorBody sbErr) [e1] fb pool
      | Returns (Some upErr) => reply 500 (ErrorBody upErr) [e1] fb pool
      | Returns None =>
        let e2 := SupabaseCreateSignedUrl bucketName path (60 * 60) in
        match sb_createSignedUrl sb bucketName path (60 * 60) with
        | Throws sbErr => reply 500 (ErrorBody sbErr) [e1; e2] fb pool
        | Returns signed =>
          match signed_error signed, signed_data signed with
          | Some signedErr, _ => reply 500 (ErrorBody signedErr) [e1; e2] fb pool
          | None, None =>
              reply 500 (ErrorBody "Cannot read properties of null (reading 'signedUrl')")
                [e1; e2] fb pool
          | None, Some signedData =>
              reply 200 (StoredBody path (signedUrl signedData)) [e1; e2] fb pool
          end
        end
      end
  end.

Definition upload (p : Process) (fb : Firebase.State)
    (pool : option Database.Pool) (req : Request) : Outcome :=
  match file req with
  | None => reply 400 (ErrorBody "No file uploaded") [] fb pool
  | Some f =>
    let originalName := originalname f in
    let timestamp := now_request p in
    let dest := storedName timestamp originalName in
    match Firebase.getBucket (env p) (sdk p) fb with
    | (fb', Returns bucket) =>
      let e1 := FirebaseWrite (Firebase.bucket_name bucket) dest (mimetype f) (buffer f) in
      match Firebase.fb_write bucket dest (mimetype f) (buffer f) with
      | Firebase.StreamError err => reply 500 (ErrorBody err) [e1] fb' pool
      | Firebase.StreamFinish =>
        let expires := (now_finish p + 60 * 60 * 1000)%Z in
        let e2 := FirebaseGetSignedUrl (Firebase.bucket_name bucket) dest expires in
        match Firebase.fb_getSignedUrl bucket dest expires with
        | Returns url => reply 200 (StoredBody dest url) [e1; e2] fb' pool
        | Throws err => reply 500 (ErrorBody err) [e1; e2] fb' pool
        end
      end
    | (fb', Throws fbErr) =>
      match supabase p with
      | None => reply 500 (ErrorBody fbErr) [] fb' pool
      | Some sb => uploadToSupabase p sb fb' pool f dest
      end
    end
  end.

End Earlier.

(** ** Further conditions and measures *)

Module Lifecycle.

(** The states the Firebase module can be in: the one it is loaded with,
    and those a call of [getBucket] leaves, under any environment. *)
Inductive reachable : Firebase.State → Prop :=
| reachable_initial : reachable Firebase.initial
| reachable_getBucket env sdk st :
    reachable st → reachable (fst (Firebase.getBucket env sdk st)).

(** The state in which the module holds [b]. *)
Definition holding (b : Firebase.Bucket) : Firebase.State :=
  {| Firebase.initialized := true; Firebase.bucket := Some b |}.

End Lifecycle.

Module Answers.

Import Server.

(** The body is [{ error }]. *)
Definition isError (b : ResponseBody) : bool :=
  match b with
  | ErrorBody _ => true
  | _ => false
  end.

(** The request reaches the insert: the effects of its outcome hold one. *)
Definition sendsInsert (o : Outcome) : Prop := occurrences isInsert (effects o) ≠ 0.

End Answers.

Module Text.

(** The string holds the character. *)
Fixpoint occurs (c : ascii) (s : string) : Prop :=
  match s with
  | EmptyString => False
  | String c' s' => c' = c ∨ occurs c s'
  end.

(** Every character of the string passes the test. *)
Fixpoint allChars (test : ascii → bool) (s : string) : Prop :=
  match s with
  | EmptyString => True
  | String c s' => test c = true ∧ allChars test s'
  end.

(** A character [encodeURIComponent] may put out: an unreserved one, or
    the percent sign of an escape. *)
Definition encoded (c : ascii) : bool := unreserved c || Ascii.eqb c "%".

(** The string begins with a slash; ends with one. *)
Definition startsWithSlash (s : string) : Prop :=
  match s with
  | String c _ => c = "/"%char
  | EmptyString => False
  end.

Fixpoint endsWithSlash (s : string) : Prop :=
  match s with
  | EmptyString => False
  | String c EmptyString => c = "/"%char
  | String _ s' => endsWithSlash s'
  end.

(** A signing request, if [e] is one, is made for a path that does not
    begin with a slash. *)
Definition relativePath (e : Effect) : Prop :=
  match e with
  | SupabaseCreateSignedUrl _ path _ => ¬ startsWithSlash path
  | _ => True
  end.

End Text.

Module Census.

Import Database Documents.

(** The rows of a project. *)
Definition ofProject (projectId : string) (t : list Document) : list Document :=
  filter (λ d, project_id d = projectId) t.

(** The rows with a given [source] and [status]. *)
Definition paired (src st : option string) (t : list Document) : list Document :=
  filter (λ d, source d = src ∧ Database.status d = st) t.

(** The pair a group of the aggregate stands for. *)
Definition groupKey (g : CountRow) : option string * option string :=
  (row_source g, row_status g).

(** The row of the aggregate a single document would make. *)
Definition rowOf (d : Document) : CountRow :=
  {| row_source := source d; row_status := Database.status d; count := 1 |}.

End Census.

(** * Properties of [POST /upload] *)

Import Server Upload.

(** Case analysis on every branch of the handler. *)
Ltac upload_cases :=
  unfold upload, uploadToSupabase, Database.insertDocument, reply in *;
  repeat (case_match; simplify_eq/=).

(** C9. An upload request with no file attached is answered 400, and the
    handler makes no storage write, no signed-URL request and no database
    call: its list of effects is empty, and the Firebase module state and
    the pool are as before. *)
Theorem upload_without_file (p : Process) (fb : Firebase.State)
    (pool : option Database.Pool) (req : Request) :
  file req = None →
  let o := upload p fb pool req in
  status (response o) = 400%Z
  ∧ json (response o) = ErrorBody "No file uploaded"
  ∧ effects o = []
  ∧ firebase_after o = fb
  ∧ pool_after o = pool.
Proof.
  intros Hfile o. subst o. unfold upload. rewrite Hfile. done.
Qed.

Lemma upload_without_file_witness :
  let o := upload (Samples.processWith Samples.noCredentials (Some Samples.client))
             Firebase.initial (Some Samples.store) Samples.emptyRequest in
  status (response o) = 400%Z
  ∧ json (response o) = ErrorBody "No file uploaded"
  ∧ effects o = []
  ∧ firebase_after o = Firebase.initial
  ∧ pool_after o = Some Samples.store.
Proof.
  apply (upload_without_file
           (Samples.processWith Samples.noCredentials (Some Samples.client))
           Firebase.initial (Some Samples.store) Samples.emptyRequest).
  reflexivity.
Defined.

(** C1, as stated, fails: with an initialised Primary client whose write
    stream emits [error] and a configured Fallback, the Primary error is
    the 500 response and the Fallback is never attempted. *)
Lemma upload_stream_error_counterexample :
  let p := Samples.processWith (Samples.credentialsFor Samples.rejectingBucket)
             (Some Samples.client) in
  let o := upload p Firebase.initial (Some Samples.store) (Samples.requestFor (Some "p1")) in
  primaryWriteFails p Firebase.initial Samples.report
  ∧ fallbackConfigured p Samples.client "policies"
  ∧ ¬ attemptsFallback o
  ∧ response o = {| status := 500; json := ErrorBody "quota exceeded" |}.
Proof.
  repeat split.
  - right. eexists _, Samples.rejectingBucket, _. split; reflexivity.
  - intros H. apply H. reflexivity.
Qed.

(** C1, amended. When the Primary client is unavailable ([getBucket]
    throws: it is unconfigured or uninitialised) and a Fallback client and
    bucket are configured, the handler goes on to the Fallback: its first
    effect is the Supabase upload of the stored name, it makes no Firebase
    call, and the outcome is that of the Supabase branch, which does not
    see the Primary error; a Fallback write failure is the 500 response.
    With no Fallback client the Primary error is the 500 response. When the
    Primary client is available and its write stream emits [error], that
    error is the 500 response and the Fallback is not attempted. *)
Theorem upload_fallback_when_primary_unavailable (p : Process)
    (fb : Firebase.State) (pool : option Database.Pool) (req : Request) (f : File) :
  file req = Some f →
  let o := upload p fb pool req in
  (∀ fb' fbErr sb bucketName,
     Firebase.getBucket (env p) (sdk p) fb = (fb', Throws fbErr) →
     fallbackConfigured p sb bucketName →
     o = uploadToSupabase p sb fb' pool req f (dest p f)
     ∧ head (effects o) = Some (SupabaseUpload bucketName (dest p f) (buffer f) (mimetype f))
     ∧ occurrences isFirebaseCall (effects o) = 0
     ∧ (∀ upErr,
          sb_upload sb bucketName (dest p f) (buffer f) (mimetype f) = Returns (Some upErr) →
          response o = {| status := 500; json := ErrorBody upErr |})
     ∧ (∀ sbErr,
          sb_upload sb bucketName (dest p f) (buffer f) (mimetype f) = Throws sbErr →
          response o = {| status := 500; json := ErrorBody sbErr |}))
  ∧ (∀ fb' fbErr,
       Firebase.getBucket (env p) (sdk p) fb = (fb', Throws fbErr) →
       supabase p = None →
       response o = {| status := 500; json := ErrorBody fbErr |} ∧ effects o = [])
  ∧ (∀ fb' b err,
       Firebase.getBucket (env p) (sdk p) fb = (fb', Returns b) →
       Firebase.fb_write b (dest p f) (mimetype f) (buffer f) = Firebase.StreamError err →
       response o = {| status := 500; json := ErrorBody err |}
       ∧ effects o = [FirebaseWrite (Firebase.bucket_name b) (dest p f) (mimetype f) (buffer f)]
       ∧ ¬ attemptsFallback o).
Proof.
  intros Hfile o. subst o. unfold dest.
  split; [|split].
  - intros fb' fbErr sb bucketName Hget (Hsb & Hbucket & Htruthy).
    assert (Heq : upload p fb pool req
                  = uploadToSupabase p sb fb' pool req f
                      (storedName (now_request p) (originalname f))).
    { unfold upload. rewrite Hfile, Hget, Hsb. done. }
    rewrite Heq. split; [done|].
    unfold uploadToSupabase. rewrite Hbucket, Htruthy. simpl.
    repeat split.
    + repeat (case_match; simplify_eq/=); done.
    + unfold Database.insertDocument. repeat (case_match; simplify_eq/=); done.
    + intros upErr Hup. rewrite Hup. done.
    + intros sbErr Hup. rewrite Hup. done.
  - intros fb' fbErr Hget Hsb. unfold upload. rewrite Hfile, Hget, Hsb. done.
  - intros fb' b err Hget Hwrite. unfold upload. rewrite Hfile, Hget. simpl.
    rewrite Hwrite. repeat split. intros H. apply H. reflexivity.
Qed.

Lemma upload_fallback_when_primary_unavailable_witness :
  let p := Samples.processWith Samples.noCredentials (Some Samples.client) in
  let o := upload p Firebase.initial (Some Samples.store) (Samples.requestFor (Some "p1")) in
  primaryUnavailable p Firebase.initial
  ∧ head (effects o)
    = Some (SupabaseUpload "policies" "1700000000000_report.pdf" "%PDF-1.7" "application/pdf")
  ∧ occurrences isFirebaseCall (effects o) = 0.
Proof.
  set (p := Samples.processWith Samples.noCredentials (Some Samples.client)).
  assert (Hget : Firebase.getBucket (env p) (sdk p) Firebase.initial
                 = (Firebase.initial, Throws Firebase.notInitialized)) by reflexivity.
  split; [by eexists _, _|].
  destruct (upload_fallback_when_primary_unavailable p Firebase.initial
              (Some Samples.store) (Samples.requestFor (Some "p1")) Samples.report
              eq_refl) as [Hfallback _].
  destruct (Hfallback Firebase.initial Firebase.notInitialized Samples.client "policies" Hget)
    as (_ & Hhead & Hfirebase & _).
  { repeat split. }
  split; [exact Hhead | exact Hfirebase].
Defined.

(** C6. In every upload request at most one storage backend receives a
    write and at most one insert is sent. The Fallback is written to only
    after the Primary failed ([getBucket] threw), in which case the Primary
    received no call; an insert is sent only after the Fallback upload and
    signing both answered without error; and a request that writes to the
    Primary sends no insert and leaves the pool as it was. *)
Theorem upload_one_backend_one_insert (p : Process) (fb : Firebase.State)
    (pool : option Database.Pool) (req : Request) :
  let o := upload p fb pool req in
  (occurrences isStorageWrite (effects o) ≤ 1)%nat
  ∧ (occurrences isInsert (effects o) ≤ 1)%nat
  ∧ (attemptsFallback o →
       primaryUnavailable p fb ∧ occurrences isFirebaseCall (effects o) = 0)
  ∧ (occurrences isInsert (effects o) ≠ 0 →
       ∃ f sb bucketName signed,
         file req = Some f
         ∧ supabase p = Some sb
         ∧ SUPABASE_BUCKET (env p) = Some bucketName
         ∧ fallbackWriteSucceeds p sb bucketName f
         ∧ sb_createSignedUrl sb bucketName (dest p f) 3600 = Returns signed
         ∧ signed_error signed = None
         ∧ effects o
           = [SupabaseUpload bucketName (dest p f) (buffer f) (mimetype f);
              SupabaseCreateSignedUrl bucketName (dest p f) 3600]
             ++ List.filter isInsert (effects o))
  ∧ (occurrences isFirebaseCall (effects o) ≠ 0 →
       occurrences isInsert (effects o) = 0
       ∧ occurrences isSupabaseUpload (effects o) = 0
       ∧ pool_after o = pool).
Proof.
  intros o. subst o.
  unfold attemptsFallback, primaryUnavailable, fallbackWriteSucceeds, dest, occurrences.
  repeat split.
  - upload_cases; lia.
  - upload_cases; lia.
  - upload_cases; try done; eauto.
  - upload_cases; done.
  - intros Hins. upload_cases; try done;
      eexists _, _, _, _; repeat split; eauto.
  - upload_cases; done.
  - upload_cases; done.
  - upload_cases; done.
Qed.

(** A Fallback write is made only for the file of the request, under its
    stored name, once the Primary client proved unavailable and with the
    Fallback configured. *)
Lemma fallback_write_made (p : Process) (fb : Firebase.State)
    (pool : option Database.Pool) (req : Request)
    (bucketName key data contentType : string) :
  In (SupabaseUpload bucketName key data contentType) (effects (upload p fb pool req)) →
  ∃ f sb,
    file req = Some f
    ∧ primaryUnavailable p fb
    ∧ fallbackConfigured p sb bucketName
    ∧ key = dest p f ∧ data = buffer f ∧ contentType = mimetype f.
Proof.
  unfold primaryUnavailable, fallbackConfigured, dest.
  upload_cases; intros Hin; repeat (destruct Hin as [Hin|Hin]; simplify_eq/=);
    try done; eexists _, _; split_and!; eauto; by apply negb_false_iff.
Qed.

(** C2, as stated, fails: the Fallback write is made and succeeds, the
    signing succeeds, a [project_id] is supplied and a pool is configured,
    yet the store rejects the insert; the response is 500 and no row is
    inserted. *)
Lemma upload_insert_failure_counterexample :
  let p := Samples.processWith Samples.noCredentials (Some Samples.client) in
  let req := Samples.requestFor (Some "p1") in
  let o := upload p Firebase.initial (Some Samples.unreachableStore) req in
  In (SupabaseUpload "policies" "1700000000000_report.pdf" "%PDF-1.7" "application/pdf")
     (effects o)
  ∧ fallbackWriteSucceeds p Samples.client "policies" Samples.report
  ∧ signingSucceeds p Samples.client "policies" Samples.report
      "https://signed/policies/1700000000000_report.pdf"
  ∧ projectIdOf req = Some "p1"
  ∧ response o = {| status := 500; json := ErrorBody "connection refused" |}
  ∧ (Database.table <$> pool_after o) = Some [].
Proof.
  split_and!; try reflexivity. left. reflexivity.
Qed.

(** C2, amended. For every upload where the Fallback write is made and
    succeeds, the signed-URL generation succeeds, a [project_id] is
    supplied, the relational store is configured and it accepts the insert:
    exactly one insert is sent and the table gains exactly one row, with
    [source = "Upload"], [status = "pending"], [document_content = null],
    [filename] the original name and [file_path] the stored key
    [<timestamp>_<originalName>]; the response is 200 and carries that row's
    id, the message ["upload successfully"], the stored key as [name] and
    the signed URL. *)
Theorem upload_fallback_inserts_document (p : Process) (fb : Firebase.State)
    (pg : Database.Pool) (req : Request) (sb : SupabaseClient)
    (bucketName key data contentType url projectId : string) :
  let o := upload p fb (Some pg) req in
  In (SupabaseUpload bucketName key data contentType) (effects o) →
  supabase p = Some sb →
  sb_upload sb bucketName key data contentType = Returns None →
  sb_createSignedUrl sb bucketName key 3600
  = Returns {| signed_data := Some {| signedUrl := url |}; signed_error := None |} →
  projectIdOf req = Some projectId →
  truthy projectId = true →
  Database.fault pg = None →
  ∃ f row,
    file req = Some f
    ∧ key = toString (now_request p) +:+ "_" +:+ originalname f
    ∧ (Database.table <$> pool_after o) = Some (Database.table pg ++ [row])
    ∧ occurrences isInsert (effects o) = 1
    ∧ Database.project_id row = projectId
    ∧ Database.filename row = Some (originalname f)
    ∧ Database.file_path row = Some key
    ∧ Database.source row = Some "Upload"
    ∧ Database.status row = Some "pending"
    ∧ Database.document_content row = None
    ∧ response o
      = {| status := 200;
           json := UploadedBody (Database.id row) "upload successfully" key url |}.
Proof.
  intros o Hmade Hclient Hup Hsign Hpid Hpidt Hfault. subst o.
  destruct (fallback_write_made _ _ _ _ _ _ _ _ Hmade)
    as (f & sb' & Hfile & (fb' & fbErr & Hget) & (Hsb & Hbucket & Htruthy) & -> & -> & ->).
  assert (sb' = sb) as -> by congruence.
  unfold projectIdOf, dest in *.
  unfold upload. rewrite Hfile, Hget, Hsb.
  unfold uploadToSupabase. rewrite Hbucket, Htruthy. simpl.
  rewrite Hup. change (60 * 60)%Z with 3600%Z. rewrite Hsign. simpl.
  rewrite Hpid, Hpidt. simpl.
  unfold Database.insertDocument. rewrite Hfault. simpl.
  eexists f, _. split_and!; reflexivity.
Qed.

Lemma upload_fallback_inserts_document_witness :
  let p := Samples.processWith Samples.noCredentials (Some Samples.client) in
  let o := upload p Firebase.initial (Some Samples.store) (Samples.requestFor (Some "p1")) in
  ∃ f row,
    file (Samples.requestFor (Some "p1")) = Some f
    ∧ "1700000000000_report.pdf" = toString (now_request p) +:+ "_" +:+ originalname f
    ∧ (Database.table <$> pool_after o) = Some (Database.table Samples.store ++ [row])
    ∧ occurrences isInsert (effects o) = 1
    ∧ Database.project_id row = "p1"
    ∧ Database.filename row = Some (originalname f)
    ∧ Database.file_path row = Some "1700000000000_report.pdf"
    ∧ Database.source row = Some "Upload"
    ∧ Database.status row = Some "pending"
    ∧ Database.document_content row = None
    ∧ response o
      = {| status := 200;
           json := UploadedBody (Database.id row) "upload successfully"
                     "1700000000000_report.pdf"
                     "https://signed/policies/1700000000000_report.pdf" |}.
Proof.
  apply (upload_fallback_inserts_document
           (Samples.processWith Samples.noCredentials (Some Samples.client))
           Firebase.initial Samples.store (Samples.requestFor (Some "p1"))
           Samples.client "policies" "1700000000000_report.pdf" "%PDF-1.7"
           "application/pdf"
           "https://signed/policies/1700000000000_report.pdf" "p1").
  - left. reflexivity.
  - reflexivity.
  - reflexivity.
  - reflexivity.
  - reflexivity.
  - reflexivity.
  - reflexivity.
Defined.

(** C3, as stated, fails: the Fallback write is made and succeeds and no
    [project_id] is sent, but the signing request is answered with an
    error; the response is 500 with the signing error, not 400. *)
Lemma upload_missing_project_id_counterexample :
  let p := Samples.processWith Samples.noCredentials (Some Samples.unsigningClient) in
  let req := Samples.requestFor None in
  let o := upload p Firebase.initial (Some Samples.store) req in
  In (SupabaseUpload "policies" "1700000000000_report.pdf" "%PDF-1.7" "application/pdf")
     (effects o)
  ∧ fallbackWriteSucceeds p Samples.unsigningClient "policies" Samples.report
  ∧ projectIdOf req = None
  ∧ response o = {| status := 500; json := ErrorBody "signing denied" |}.
Proof.
  split_and!; try reflexivity. left. reflexivity.
Qed.

(** C3, amended. For every upload where the Fallback write is made and
    succeeds, the signed-URL generation answers without error and the form
    carries no [project_id], the response is 400 with the message
    ["project_id is required"]. By then the object write and the signing
    request have both been made, in this order, and they are the only
    effects of the request: nothing removes the object and no insert is
    sent, so the pool is as before. *)
Theorem upload_missing_project_id (p : Process) (fb : Firebase.State)
    (pool : option Database.Pool) (req : Request) (sb : SupabaseClient)
    (bucketName key data contentType : string) (signed : SignedResult) :
  let o := upload p fb pool req in
  In (SupabaseUpload bucketName key data contentType) (effects o) →
  supabase p = Some sb →
  sb_upload sb bucketName key data contentType = Returns None →
  sb_createSignedUrl sb bucketName key 3600 = Returns signed →
  signed_error signed = None →
  truthyO (projectIdOf req) = false →
  response o = {| status := 400; json := ErrorBody "project_id is required" |}
  ∧ effects o
    = [SupabaseUpload bucketName key data contentType;
       SupabaseCreateSignedUrl bucketName key 3600]
  ∧ pool_after o = pool.
Proof.
  intros o Hmade Hclient Hup Hsign Herr Hpid. subst o.
  destruct (fallback_write_made _ _ _ _ _ _ _ _ Hmade)
    as (f & sb' & Hfile & (fb' & fbErr & Hget) & (Hsb & Hbucket & Htruthy) & -> & -> & ->).
  assert (sb' = sb) as -> by congruence.
  unfold projectIdOf, dest in *.
  unfold upload. rewrite Hfile, Hget, Hsb.
  unfold uploadToSupabase. rewrite Hbucket, Htruthy. simpl.
  rewrite Hup. change (60 * 60)%Z with 3600%Z. rewrite Hsign, Herr.
  destruct (Js.or _ _) as [projectId|]; simpl in *; [rewrite Hpid|]; done.
Qed.

Lemma upload_missing_project_id_witness :
  let p := Samples.processWith Samples.noCredentials (Some Samples.client) in
  let o := upload p Firebase.initial (Some Samples.store) (Samples.requestFor None) in
  response o = {| status := 400; json := ErrorBody "project_id is required" |}
  ∧ effects o
    = [SupabaseUpload "policies" "1700000000000_report.pdf" "%PDF-1.7" "application/pdf";
       SupabaseCreateSignedUrl "policies" "1700000000000_report.pdf" 3600]
  ∧ pool_after o = Some Samples.store.
Proof.
  apply (upload_missing_project_id
           (Samples.processWith Samples.noCredentials (Some Samples.client))
           Firebase.initial (Some Samples.store) (Samples.requestFor None)
           Samples.client "policies" "1700000000000_report.pdf" "%PDF-1.7"
           "application/pdf"
           {| signed_data := Some {| signedUrl := "https://signed/policies/1700000000000_report.pdf" |};
              signed_error := None |}).
  - left. reflexivity.
  - reflexivity.
  - reflexivity.
  - reflexivity.
  - reflexivity.
  - reflexivity.
Defined.

(** * Properties of the document listings *)

Import Database Documents Listing.

Lemma lowerSourceIn_spec names d :
  lowerSourceIn names d = true ↔ sourceIs names d.
Proof.
  unfold lowerSourceIn, sourceIs. destruct (source d).
  - apply bool_decide_eq_true.
  - split; [discriminate | tauto].
Qed.

Lemma filter_wanted projectId names (t : list Document) :
  filter (λ d, project_id d = projectId ∧ lowerSourceIn names d = true) t
  = filter (wanted projectId names) t.
Proof.
  apply list_filter_iff. intros d. unfold wanted.
  rewrite lowerSourceIn_spec. tauto.
Qed.

(** A row cannot be wanted by both listings. *)
Lemma sourceIs_disjoint d :
  sourceIs ["upload"; "other"] d → sourceIs ["scrape"] d → False.
Proof.
  unfold sourceIs. destruct (source d) as [s|]; [|tauto].
  intros H1 H2.
  apply list_elem_of_singleton in H2. rewrite H2 in H1.
  apply list_elem_of_In in H1. simpl in H1. intuition discriminate.
Qed.

Section Listings.

Context (collate : relation string)
  `{!RelDecision collate, !Total collate, !Transitive collate}.

#[local] Instance nullsLast_total : Total (nullsLast collate).
Proof.
  intros [x|] [y|]; simpl; auto.
Qed.

#[local] Instance nullsLast_trans : Transitive (nullsLast collate).
Proof.
  intros [x|] [y|] [z|]; simpl; try tauto. apply transitivity.
Qed.

#[local] Instance filenameLe_total : Total (filenameLe collate).
Proof.
  intros a b. apply (base.total (nullsLast collate)).
Qed.

#[local] Instance filenameLe_trans : Transitive (filenameLe collate).
Proof.
  intros a b c. apply (transitivity (R := nullsLast collate)).
Qed.

Lemma ordered_select (P : Document → Prop) `{!∀ d, Decision (P d)} (t : list Document) :
  let rows := merge_sort (filenameLe collate) (filter P t) in
  rows ≡ₚ filter P t
  ∧ StronglySorted (filenameLe collate) rows
  ∧ (∀ d, d ∈ rows ↔ d ∈ t ∧ P d).
Proof.
  intros rows. subst rows. split; [|split].
  - apply merge_sort_Permutation.
  - apply (StronglySorted_merge_sort _).
  - intros d. rewrite merge_sort_Permutation, list_elem_of_filter. tauto.
Qed.

(** C7. For a project id, with the store reachable, the upload-or-other
    listing answers exactly the rows of the project whose lower-cased
    [source] is [upload] or [other] (each as often as the table holds it),
    none of which has the lower-cased source [scrape]; the scraped listing
    answers the projection of exactly the rows of the project whose
    lower-cased [source] is [scrape], none of which is an upload or other
    row; and both answers are in ascending order of [filename]. *)
Theorem listings_by_source (pg : Pool) (projectId : string) :
  truthy projectId = true →
  fault pg = None →
  ∃ docs rows,
    uploadOrOther collate (Some pg) projectId = reply 200 (DocumentsBody docs)
    ∧ docs ≡ₚ filter (wanted projectId ["upload"; "other"]) (table pg)
    ∧ (∀ d, d ∈ docs ↔ d ∈ table pg ∧ wanted projectId ["upload"; "other"] d)
    ∧ Forall (λ d, ¬ sourceIs ["scrape"] d) docs
    ∧ StronglySorted (λ a b, nullsLast collate (filename a) (filename b)) docs
    ∧ scraped collate (Some pg) projectId = reply 200 (ScrapedBody (project <$> rows))
    ∧ rows ≡ₚ filter (wanted projectId ["scrape"]) (table pg)
    ∧ (∀ d, d ∈ rows ↔ d ∈ table pg ∧ wanted projectId ["scrape"] d)
    ∧ Forall (λ d, ¬ sourceIs ["upload"; "other"] d) rows
    ∧ StronglySorted (λ a b, nullsLast collate (file_name a) (file_name b)) (project <$> rows).
Proof.
  intros Hid Hfault.
  exists (merge_sort (filenameLe collate) (filter (wanted projectId ["upload"; "other"]) (table pg))),
         (merge_sort (filenameLe collate) (filter (wanted projectId ["scrape"]) (table pg))).
  destruct (ordered_select (wanted projectId ["upload"; "other"]) (table pg)) as (Hp1 & Hs1 & Hm1).
  destruct (ordered_select (wanted projectId ["scrape"]) (table pg)) as (Hp2 & Hs2 & Hm2).
  split_and!.
  - unfold uploadOrOther, query, selectUploadOrOther.
    rewrite Hid, Hfault. simpl. by rewrite filter_wanted.
  - exact Hp1.
  - exact Hm1.
  - rewrite List.Forall_forall. intros d Hd Hscrape.
    apply list_elem_of_In, Hm1 in Hd. destruct Hd as (_ & _ & Hsrc).
    exact (sourceIs_disjoint d Hsrc Hscrape).
  - exact Hs1.
  - unfold scraped, query, selectScraped.
    rewrite Hid, Hfault. simpl. by rewrite filter_wanted.
  - exact Hp2.
  - exact Hm2.
  - rewrite List.Forall_forall. intros d Hd Hup.
    apply list_elem_of_In, Hm2 in Hd. destruct Hd as (_ & _ & Hsrc).
    exact (sourceIs_disjoint d Hup Hsrc).
  - apply (StronglySorted_fmap project (filenameLe collate)); [|exact Hs2].
    intros a b Hab. exact Hab.
Qed.

End Listings.

Lemma listings_by_source_witness :
  ∃ docs rows,
    uploadOrOther String.le (Some samplePool) "p1" = reply 200 (DocumentsBody docs)
    ∧ docs ≡ₚ filter (wanted "p1" ["upload"; "other"]) (table samplePool)
    ∧ (∀ d, d ∈ docs ↔ d ∈ table samplePool ∧ wanted "p1" ["upload"; "other"] d)
    ∧ Forall (λ d, ¬ sourceIs ["scrape"] d) docs
    ∧ StronglySorted (λ a b, nullsLast String.le (filename a) (filename b)) docs
    ∧ scraped String.le (Some samplePool) "p1" = reply 200 (ScrapedBody (project <$> rows))
    ∧ rows ≡ₚ filter (wanted "p1" ["scrape"]) (table samplePool)
    ∧ (∀ d, d ∈ rows ↔ d ∈ table samplePool ∧ wanted "p1" ["scrape"] d)
    ∧ Forall (λ d, ¬ sourceIs ["upload"; "other"] d) rows
    ∧ StronglySorted (λ a b, nullsLast String.le (file_name a) (file_name b)) (project <$> rows).
Proof.
  apply (listings_by_source String.le samplePool "p1"); reflexivity.
Defined.

(** The two listings on the sample table. *)
Example listings_sample :
  uploadOrOther String.le (Some samplePool) "p1"
  = reply 200 (DocumentsBody
      [ row "d3" "p1" (Some "budget.pdf") (Some "other");
        row "d1" "p1" (Some "zoning.pdf") (Some "Upload") ])
  ∧ scraped String.le (Some samplePool) "p1"
  = reply 200 (ScrapedBody
      [ project (row "d2" "p1" (Some "audit.pdf") (Some "SCRAPE"));
        project (row "d5" "p1" None (Some "Scrape")) ]).
Proof.
  split; vm_compute; reflexivity.
Qed.

(** * Properties of the preview route *)

Import Preview.

Lemma selectById_unknown (pg : Pool) (docId : string) :
  unknown pg docId → selectById docId (table pg) = [].
Proof.
  unfold unknown, selectById. induction 1 as [|d t Hd _ IH]; [done|].
  rewrite filter_cons_False; done.
Qed.

Lemma getPreviewUrl_found env supabase (pg : Pool) docId doc rest :
  truthy docId = true →
  fault pg = None →
  selectById docId (table pg) = doc :: rest →
  getPreviewUrl env supabase (Some pg) docId = previewOf env supabase doc.
Proof.
  intros Hid Hfault Hrows. unfold getPreviewUrl, query.
  rewrite Hid, Hfault, Hrows. done.
Qed.

Section PreviewOf.

Context (env : Env) (supabase : option SupabaseClient) (doc : Document).

Lemma previewOf_no_filename :
  truthyO (filename doc) = false →
  previewOf env supabase doc
  = (reply 500 (ErrorBody "Document filename not found in database"), []).
Proof.
  intros Hempty. unfold previewOf, orDefault.
  destruct (filename doc) as [name|]; simpl in *; [|done].
  rewrite Hempty. done.
Qed.

Context (name : string) (Hname : filename doc = Some name) (Htruthy : truthy name = true).

Lemma filename_or_empty : orDefault (filename doc) EmptyString = name.
Proof.
  unfold orDefault. rewrite Hname, Htruthy. done.
Qed.

Lemma previewOf_signed sb supabaseUrl bucket url :
  supabaseConfigured env supabase sb supabaseUrl bucket →
  signed (sb_createSignedUrl sb bucket (stripLeadingSlashes name) 3600) url →
  previewOf env supabase doc
  = (reply 200 (PreviewBody url),
     [SupabaseCreateSignedUrl bucket (stripLeadingSlashes name) 3600]).
Proof.
  unfold previewOf, normalize. rewrite filename_or_empty.
  intros (-> & -> & Hu & -> & Hb) [Hsigned Hurl].
  rewrite Htruthy, Hu, Hb. simpl. rewrite Hsigned. simpl. rewrite Hurl. done.
Qed.

Lemma previewOf_signing_declined sb supabaseUrl bucket :
  supabaseConfigured env supabase sb supabaseUrl bucket →
  signingDeclined (sb_createSignedUrl sb bucket (stripLeadingSlashes name) 3600) →
  previewOf env supabase doc
  = (reply 200 (PreviewBody (publicUrl supabaseUrl bucket (stripLeadingSlashes name))),
     [SupabaseCreateSignedUrl bucket (stripLeadingSlashes name) 3600]).
Proof.
  unfold previewOf, normalize. rewrite filename_or_empty.
  intros (-> & -> & Hu & -> & Hb) (result & Hresult & Hfail).
  rewrite Htruthy, Hu, Hb. simpl. rewrite Hresult.
  destruct result as [[[url]|] [err|]]; simpl in *; try done.
  destruct Hfail as [[? ?]|[?|?]]; simplify_eq/=. done.
Qed.

(** When the signing call itself raises, the handler answers 500. *)
Lemma previewOf_signing_throws sb supabaseUrl bucket msg :
  supabaseConfigured env supabase sb supabaseUrl bucket →
  signingRejected (sb_createSignedUrl sb bucket (stripLeadingSlashes name) 3600) msg →
  previewOf env supabase doc
  = (reply 500 (ErrorBody ("Failed to generate preview URL: " +:+ msg)),
     [SupabaseCreateSignedUrl bucket (stripLeadingSlashes name) 3600]).
Proof.
  unfold previewOf, normalize. rewrite filename_or_empty.
  intros (-> & -> & Hu & -> & Hb) Hthrows.
  rewrite Htruthy, Hu, Hb. simpl. rewrite Hthrows. done.
Qed.

Lemma previewOf_without_supabase :
  supabaseUnconfigured env supabase →
  previewOf env supabase doc
  = match FIREBASE_STORAGE_BUCKET env with
    | Some fbBucket =>
        if truthy fbBucket
        then (reply 200 (PreviewBody (mediaUrl fbBucket (stripLeadingSlashes name))), [])
        else (reply 500 (ErrorBody "Storage not configured for preview URL generation"), [])
    | None => (reply 500 (ErrorBody "Storage not configured for preview URL generation"), [])
    end.
Proof.
  unfold previewOf, normalize, supabaseUnconfigured.
  rewrite filename_or_empty, Htruthy. simpl.
  destruct supabase as [sb|], (SUPABASE_URL env) as [u|],
    (SUPABASE_BUCKET env) as [b|]; simpl; try done.
  intros [?|[Hf|Hf]]; simplify_eq/=; rewrite Hf, ?andb_false_r; done.
Qed.

End PreviewOf.

(** A signing request ends in exactly one of three ways: it is answered
    with a signed URL, it declines, or it rejects. *)
Lemma signing_answers (answer : Call SignedResult) :
  (∃ url, signed answer url)
  ∨ signingDeclined answer
  ∨ ∃ msg, signingRejected answer msg.
Proof.
  unfold signed, signingDeclined, signingRejected.
  destruct answer as [[[[url]|] [err|]]|msg]; [| | | |by right; right; exists msg].
  - right; left. eexists. split; [done|]. left. by eexists.
  - destruct (truthy url) eqn:Hurl.
    + left. by exists url.
    + right; left. eexists. split; [done|]. right; right. simpl.
      unfold truthy in Hurl. apply negb_false_iff, String.eqb_eq in Hurl. by subst.
  - right; left. eexists. split; [done|]. left. by eexists.
  - right; left. eexists. split; [done|]. right; left. done.
Qed.

Lemma signing_answers_disjoint (answer : Call SignedResult) :
  (∀ url, signed answer url → ¬ signingFailed answer)
  ∧ (signingDeclined answer → ∀ msg, ¬ signingRejected answer msg).
Proof.
  unfold signed, signingFailed, signingDeclined, signingRejected. split.
  - intros url [-> Hurl] [(result & [= <-] & Hfail)|[msg ?]]; [|done].
    simpl in Hfail. destruct Hfail as [[? ?]|[?|?]]; by simplify_eq/=.
  - intros (result & -> & _) msg. done.
Qed.

(** C4, the case the claim gets wrong. Supabase is configured, the row is
    found and has a filename, and the signing request fails by rejecting:
    the route answers 500 ["Failed to generate preview URL: ..."], not the
    public object URL. *)
Lemma getPreviewUrl_signing_rejected_counterexample :
  let docId := "0b5c6c4e-6f0e-4a57-9d3b-2f1a3c9d7e10" in
  let o := getPreviewUrl Samples.environment (Some Samples.throwingClient)
             (Some Preview.samplePool) docId in
  selectById docId (table Preview.samplePool) = [uploaded]
  ∧ filename uploaded = Some "/reports/q1.pdf"
  ∧ supabaseConfigured Samples.environment (Some Samples.throwingClient)
      Samples.throwingClient "https://project.supabase.co/" "policies"
  ∧ signingFailed (sb_createSignedUrl Samples.throwingClient "policies" "reports/q1.pdf" 3600)
  ∧ o = (reply 500 (ErrorBody "Failed to generate preview URL: fetch failed"),
         [SupabaseCreateSignedUrl "policies" "reports/q1.pdf" 3600])
  ∧ o ≠ (reply 200 (PreviewBody
           (publicUrl "https://project.supabase.co/" "policies" "reports/q1.pdf")),
         [SupabaseCreateSignedUrl "policies" "reports/q1.pdf" 3600]).
Proof.
  split_and!; try done.
  right. by exists "fetch failed".
Qed.

(** C4. For a preview request that reaches the store: an unknown document
    id is answered 404; a row whose [filename] is empty (or null) is
    answered with the integrity error; otherwise the URL is derived from
    the filename without its leading slashes, in this order. With Supabase
    configured, one signing request is made for that path with an expiry of
    3600 s, and it ends in one of three ways. Answered with a signed URL,
    that URL is the answer. Declined (the request resolves with an error or
    without a URL), the answer is the public object URL of the same,
    percent-encoded path. Rejected (the request throws), the answer is 500
    ["Failed to generate preview URL: <message>"] and no URL. Else, with the
    Firebase bucket configured, the answer is the public media URL. Else
    the request fails for want of a preview backend. *)
Theorem getPreviewUrl_precedence (env : Env) (supabase : option SupabaseClient)
    (pg : Pool) (docId : string) :
  truthy docId = true →
  fault pg = None →
  let o := getPreviewUrl env supabase (Some pg) docId in
  (unknown pg docId →
     o = (reply 404 (ErrorBody "document not found"), []))
  ∧ (∀ doc rest,
       selectById docId (table pg) = doc :: rest →
       (truthyO (filename doc) = false →
          o = (reply 500 (ErrorBody "Document filename not found in database"), []))
       ∧ (∀ name,
            filename doc = Some name → truthy name = true →
            let path := stripLeadingSlashes name in
            (∀ sb supabaseUrl bucket,
               supabaseConfigured env supabase sb supabaseUrl bucket →
               let answer := sb_createSignedUrl sb bucket path 3600 in
               ((∃ url, signed answer url)
                ∨ signingDeclined answer
                ∨ ∃ msg, signingRejected answer msg)
               ∧ (∀ url,
                    signed answer url →
                    o = (reply 200 (PreviewBody url),
                         [SupabaseCreateSignedUrl bucket path 3600]))
               ∧ (signingDeclined answer →
                  o = (reply 200 (PreviewBody
                         (stripTrailingSlash supabaseUrl +:+ "/storage/v1/object/public/"
                            +:+ bucket +:+ "/" +:+ encodeURIComponent path)),
                       [SupabaseCreateSignedUrl bucket path 3600]))
               ∧ (∀ msg,
                    signingRejected answer msg →
                    o = (reply 500 (ErrorBody ("Failed to generate preview URL: " +:+ msg)),
                         [SupabaseCreateSignedUrl bucket path 3600])))
            ∧ (supabaseUnconfigured env supabase →
               ∀ fbBucket,
                 firebaseConfigured env fbBucket →
                 o = (reply 200 (PreviewBody
                        ("https://firebasestorage.googleapis.com/v0/b/" +:+ fbBucket
                           +:+ "/o/" +:+ encodeURIComponent path +:+ "?alt=media")),
                      []))
            ∧ (supabaseUnconfigured env supabase →
               truthyO (FIREBASE_STORAGE_BUCKET env) = false →
               o = (reply 500 (ErrorBody "Storage not configured for preview URL generation"),
                    [])))).
Proof.
  intros Hid Hfault o. subst o. split.
  - intros Hunknown. unfold getPreviewUrl, query.
    rewrite Hid, Hfault, (selectById_unknown _ _ Hunknown). done.
  - intros doc rest Hrows.
    rewrite (getPreviewUrl_found _ _ _ _ _ _ Hid Hfault Hrows).
    split; [apply previewOf_no_filename|].
    intros name Hname Htruthy path. subst path. split_and!.
    + intros sb supabaseUrl bucket Hsb answer. subst answer. split_and!.
      * apply signing_answers.
      * intros url Hsigned. by eapply previewOf_signed.
      * intros Hdeclined. by eapply previewOf_signing_declined.
      * intros msg Hrejected. by eapply previewOf_signing_throws.
    + intros Hno fbBucket [Hfb Hfbt].
      rewrite (previewOf_without_supabase _ _ _ name), Hfb, Hfbt; done.
    + intros Hno Hfb.
      rewrite (previewOf_without_supabase _ _ _ name); try done.
      destruct (FIREBASE_STORAGE_BUCKET env); simpl in *; [rewrite Hfb|]; done.
Qed.

Lemma getPreviewUrl_precedence_witness :
  getPreviewUrl Samples.environment (Some Samples.unsigningClient)
    (Some Preview.samplePool) "0b5c6c4e-6f0e-4a57-9d3b-2f1a3c9d7e10"
  = (reply 200 (PreviewBody
       "https://project.supabase.co/storage/v1/object/public/policies/reports%2Fq1.pdf"),
     [SupabaseCreateSignedUrl "policies" "reports/q1.pdf" 3600]).
Proof.
  destruct (getPreviewUrl_precedence Samples.environment (Some Samples.unsigningClient)
              Preview.samplePool "0b5c6c4e-6f0e-4a57-9d3b-2f1a3c9d7e10"
              eq_refl eq_refl) as [_ Hfound].
  destruct (Hfound uploaded [] eq_refl) as [_ Hname].
  destruct (Hname "/reports/q1.pdf" eq_refl eq_refl) as (Hsupabase & _ & _).
  destruct (Hsupabase Samples.unsigningClient "https://project.supabase.co/" "policies")
    as (_ & _ & Hdeclined & _).
  { repeat split. }
  apply Hdeclined.
  eexists. split; [reflexivity|]. left. by eexists.
Defined.

(** * Signed URLs *)

(** C8. Every signing request the handlers make asks for one hour: the
    Primary upload path passes the instant 3600 s after the moment of
    generation (in milliseconds), the Fallback upload path and the preview
    route pass the duration 3600 s; and the signed URL of either upload
    response is the answer to such a request. *)
Theorem signed_urls_expire_in_one_hour (p : Server.Process) (fb : Firebase.State)
    (pool : option Pool) (req : Server.Request)
    (env : Env) (supabase : option SupabaseClient) (pool' : option Pool) (docId : string) :
  let o := Server.upload p fb pool req in
  Forall (expiresInOneHour (Server.now_finish p)) (Server.effects o)
  ∧ (∀ name url,
       Server.json (Server.response o) = Server.StoredBody name url →
       ∃ fb' b,
         Firebase.getBucket (Server.env p) (Server.sdk p) fb = (fb', Returns b)
         ∧ Firebase.fb_getSignedUrl b name (Server.now_finish p + 3600 * 1000) = Returns url)
  ∧ (∀ i message name url,
       Server.json (Server.response o) = Server.UploadedBody i message name url →
       ∃ sb bucket result,
         Server.supabase p = Some sb
         ∧ SUPABASE_BUCKET (Server.env p) = Some bucket
         ∧ sb_createSignedUrl sb bucket name 3600 = Returns result
         ∧ (signedUrl <$> signed_data result) = Some url)
  ∧ (∀ generated,
       Forall (expiresInOneHour generated) (snd (getPreviewUrl env supabase pool' docId))).
Proof.
  intros o. subst o. split_and!.
  - upload_cases; repeat constructor.
  - intros name url. upload_cases; intros; simplify_eq. eauto.
  - intros i message name url. upload_cases; intros; simplify_eq.
    eexists _, _, _. split_and!; eauto.
    match goal with H : signed_data _ = Some _ |- _ => by rewrite H end.
  - intros generated. unfold getPreviewUrl, query, previewOf.
    repeat case_match; simplify_eq/=; repeat constructor.
Qed.

(** * The preview path and the storage key *)

Lemma string_length_app (a b : string) :
  String.length (a +:+ b) = String.length a + String.length b.
Proof.
  induction a as [|c a IH]; simpl; [done|]. by rewrite IH.
Qed.

Lemma encodeURIComponent_app (a b : string) :
  encodeURIComponent (a +:+ b) = encodeURIComponent a +:+ encodeURIComponent b.
Proof.
  induction a as [|c a IH]; simpl; [done|].
  rewrite IH. unfold encodeChar. destruct (unreserved c); done.
Qed.

(** Stripping the leading slashes leaves a suffix. *)
Lemma stripLeadingSlashes_suffix (s : string) :
  ∃ slashes, s = slashes +:+ stripLeadingSlashes s.
Proof.
  induction s as [|c s [slashes IH]]; simpl.
  - by exists EmptyString.
  - destruct (Ascii.eqb c "/").
    + exists (String c slashes).
      change (String c s = String c (slashes +:+ stripLeadingSlashes s)).
      by rewrite <- IH.
    + by exists EmptyString.
Qed.

(** The encoded stored key is longer than the encoded preview path. *)
Lemma encoded_key_longer (timestamp : Z) (name : string) :
  String.length (encodeURIComponent (stripLeadingSlashes name))
  < String.length (encodeURIComponent (Server.storedName timestamp name)).
Proof.
  unfold Server.storedName.
  destruct (stripLeadingSlashes_suffix name) as [slashes Hname].
  rewrite Hname at 2.
  rewrite !encodeURIComponent_app, !string_length_app. simpl. lia.
Qed.

Lemma key_longer (timestamp : Z) (name : string) :
  String.length (stripLeadingSlashes name)
  < String.length (Server.storedName timestamp name).
Proof.
  unfold Server.storedName.
  destruct (stripLeadingSlashes_suffix name) as [slashes Hname].
  rewrite Hname at 2. rewrite !string_length_app. simpl. lia.
Qed.

Lemma publicUrl_of_key (timestamp : Z) (name supabaseUrl bucket : string) :
  publicUrl supabaseUrl bucket (stripLeadingSlashes name)
  ≠ publicUrl supabaseUrl bucket (Server.storedName timestamp name).
Proof.
  intros Heq. apply (f_equal String.length) in Heq.
  unfold publicUrl in Heq. rewrite !string_length_app in Heq.
  pose proof (encoded_key_longer timestamp name). lia.
Qed.

Lemma mediaUrl_of_key (timestamp : Z) (name fbBucket : string) :
  mediaUrl fbBucket (stripLeadingSlashes name)
  ≠ mediaUrl fbBucket (Server.storedName timestamp name).
Proof.
  intros Heq. apply (f_equal String.length) in Heq.
  unfold mediaUrl in Heq. rewrite !string_length_app in Heq.
  pose proof (encoded_key_longer timestamp name). lia.
Qed.

Lemma selectById_rewritePaths g docId (t : list Document) :
  selectById docId (withFilePath g <$> t) = withFilePath g <$> selectById docId t.
Proof.
  unfold selectById. induction t as [|d t IH]; [done|].
  csimpl. rewrite !filter_cons. simpl. rewrite IH.
  destruct (decide (id d = docId)); done.
Qed.

(** C10. The preview route reads the row's [filename] only: giving the
    rows any other [file_path] changes neither its answer nor the requests
    it makes. The upload route inserts a row whose [file_path] is the
    stored key [<timestamp>_<filename>], under which it wrote the bytes. So
    for a row created by an upload, the path the preview derives (the
    filename without leading slashes) differs from the storage key; every
    signing request of the preview is made for that path, and a preview URL
    it answers is the signed URL of that path, or the public or media URL
    of that path, which differs from the one of the storage key. *)
Theorem preview_path_differs_from_storage_key :
  (∀ env supabase pg docId g,
     getPreviewUrl env supabase (Some (rewritePaths g pg)) docId
     = getPreviewUrl env supabase (Some pg) docId)
  ∧ (∀ p fb pool req,
       let o := Server.upload p fb pool req in
       Forall (insertsStoredKey (Server.now_request p) (Server.effects o)) (Server.effects o))
  ∧ (∀ timestamp name env supabase pg docId doc rest,
       let key := Server.storedName timestamp name in
       let path := stripLeadingSlashes name in
       let o := getPreviewUrl env supabase (Some pg) docId in
       truthy docId = true →
       fault pg = None →
       selectById docId (table pg) = doc :: rest →
       filename doc = Some name →
       file_path doc = Some key →
       path ≠ key
       ∧ Forall (signsPath path) (snd o)
       ∧ ∀ url,
           json (fst o) = PreviewBody url →
           (∃ sb bucket result,
              supabase = Some sb
              ∧ SUPABASE_BUCKET env = Some bucket
              ∧ sb_createSignedUrl sb bucket path 3600 = Returns result
              ∧ (signedUrl <$> signed_data result) = Some url)
           ∨ (∃ supabaseUrl bucket,
                url = publicUrl supabaseUrl bucket path
                ∧ url ≠ publicUrl supabaseUrl bucket key)
           ∨ (∃ fbBucket,
                url = mediaUrl fbBucket path ∧ url ≠ mediaUrl fbBucket key)).
Proof.
  split_and!.
  - intros env supabase pg docId g. unfold getPreviewUrl, query. simpl.
    destruct (negb (truthy docId)); [done|].
    destruct (fault pg); [done|].
    rewrite selectById_rewritePaths.
    destruct (selectById docId (table pg)); reflexivity.
  - intros p fb pool req o. subst o.
    upload_cases; repeat constructor; simpl; eauto 10.
  - intros timestamp name env supabase pg docId doc rest key path o
      Hid Hfault Hrows Hname Hpath.
    subst o key path.
    rewrite (getPreviewUrl_found _ _ _ _ _ _ Hid Hfault Hrows).
    split_and!.
    + intros Heq. apply (f_equal String.length) in Heq.
      pose proof (key_longer timestamp name). lia.
    + unfold previewOf, orDefault, normalize. rewrite Hname.
      repeat case_match; simplify_eq/=; repeat constructor.
    + intros url. unfold previewOf, orDefault, normalize. rewrite Hname.
      repeat case_match; simplify_eq/=; intros; simplify_eq;
        first
          [ left; eexists _, _, _; split_and!; eauto;
            match goal with H : signed_data _ = Some _ |- _ => by rewrite H end
          | right; left; eexists _, _; split; [reflexivity|]; apply publicUrl_of_key
          | right; right; eexists; split; [reflexivity|]; apply mediaUrl_of_key ].
Qed.

(** * Properties of the summary route *)

Import Summary.

Lemma orZero_id (n : Z) : orZero n = n.
Proof.
  unfold orZero. destruct (Z.eqb_spec n 0); congruence.
Qed.

Section SumOver.

Context {A : Type} (f : A → Z).

Lemma sumOver_empty : sumOver f ∅ = 0%Z.
Proof.
  apply map_fold_empty.
Qed.

Lemma sumOver_insert_new (m : gmap string A) k a :
  m !! k = None → sumOver f (<[k := a]> m) = (f a + sumOver f m)%Z.
Proof.
  intros Hk. unfold sumOver. rewrite map_fold_insert_L; [done| |done].
  intros. simpl. lia.
Qed.

Lemma sumOver_insert_old (m : gmap string A) k a b :
  m !! k = Some b → sumOver f (<[k := a]> m) = (f a - f b + sumOver f m)%Z.
Proof.
  intros Hk. rewrite <- (insert_delete_eq m).
  rewrite sumOver_insert_new by apply lookup_delete_eq.
  unfold sumOver.
  rewrite (map_fold_delete_L _ _ k b m); [lia| |done].
  intros. simpl. lia.
Qed.

End SumOver.

Lemma foldr_add_shift (l : list Z) (z : Z) :
  foldr Z.add z l = (foldr Z.add 0 l + z)%Z.
Proof.
  induction l as [|x l IH]; simpl; [lia|]. rewrite IH. lia.
Qed.

Lemma sumCounts_snoc rows r : sumCounts (rows ++ [r]) = (sumCounts rows + count r)%Z.
Proof.
  unfold sumCounts. rewrite fmap_app, foldr_app, foldr_add_shift. simpl. lia.
Qed.

Section Counted.

Context (P : CountRow → Prop) `{!∀ r, Decision (P r)}.

Lemma counted_snoc rows r :
  counted P (rows ++ [r]) = (counted P rows + (if decide (P r) then count r else 0))%Z.
Proof.
  unfold counted, sumCounts. rewrite filter_app, fmap_app, foldr_app.
  rewrite filter_cons, filter_nil.
  rewrite foldr_add_shift. destruct (decide (P r)); simpl; lia.
Qed.

End Counted.

Lemma counted_none (P : CountRow → Prop) `{!∀ r, Decision (P r)} rows :
  (∀ r, r ∈ rows → ¬ P r) → counted P rows = 0%Z.
Proof.
  intros Hnone. unfold counted.
  destruct (filter P rows) as [|x l] eqn:Hfilter; [done|].
  assert (Hx : x ∈ filter P rows) by (rewrite Hfilter; left).
  apply list_elem_of_filter in Hx as [HP Hin]. by destruct (Hnone x Hin).
Qed.

(** Labels that are not inherited names read as own properties only. *)
Lemma get_plain {A} (m : gmap string A) key :
  ¬ inherited key →
  get m key = match m !! key with Some a => Own a | None => Undefined end.
Proof.
  intros Hkey. unfold get. destruct (m !! key); [done|].
  destruct (assoc key objectPrototype) eqn:Hassoc; [|done].
  exfalso. apply Hkey. unfold inherited. by rewrite Hassoc.
Qed.

Lemma set_plain {A} (m : gmap string A) key v :
  ¬ inherited key → set m key v = <[key := v]> m.
Proof.
  intros Hkey. unfold set. destruct (String.eqb_spec key "__proto__") as [->|]; [|done].
  exfalso. apply Hkey. by eexists.
Qed.

Lemma step_plain pre acc r :
  Summarizes pre acc → plain r → step acc r = Returns (stepPlain acc r).
Proof.
  intros Hacc [Hsrc Hst]. unfold step, stepPlain, entryOf, slotOf.
  fold (sourceLabel r) (statusLabel r). rewrite orZero_id.
  assert (Hflags :
    (if String.eqb (toLowerCase (statusLabel r)) "processed"
     then (total_processed acc + count r)%Z else total_processed acc)
    = (if decide (isProcessed r) then (total_processed acc + count r)%Z else total_processed acc)
    ∧ (if String.eqb (toLowerCase (statusLabel r)) "analysed"
          || String.eqb (toLowerCase (statusLabel r)) "analyzed"
       then (total_analysed acc + count r)%Z else total_analysed acc)
    = (if decide (isAnalysed r) then (total_analysed acc + count r)%Z else total_analysed acc)).
  { unfold isProcessed, isAnalysed. split.
    - destruct (String.eqb_spec (toLowerCase (statusLabel r)) "processed");
        destruct (decide _); done.
    - destruct (String.eqb_spec (toLowerCase (statusLabel r)) "analysed");
        destruct (String.eqb_spec (toLowerCase (statusLabel r)) "analyzed");
        destruct (decide _); simpl; tauto. }
  destruct Hflags as [-> ->].
  rewrite (get_plain (summary acc) _ Hsrc).
  destruct (summary acc !! sourceLabel r) as [e|] eqn:Hentry; simpl.
  - rewrite (get_plain (summary acc) _ Hsrc), Hentry.
    rewrite (get_plain (by_status e) _ Hst), (set_plain _ _ _ Hst).
    destruct (by_status e !! statusLabel r) as [v|] eqn:Hslot; simpl.
    + rewrite (status_count _ _ Hacc _ _ _ _ Hentry Hslot). simpl.
      rewrite orZero_id. done.
    + done.
  - rewrite (get_plain (<[_ := _]> (summary acc)) _ Hsrc), lookup_insert_eq.
    rewrite (get_plain (by_status _) _ Hst), (set_plain _ _ _ Hst). simpl.
    rewrite lookup_empty. simpl.
    rewrite insert_insert_eq. done.
Qed.

Lemma exists_snoc (P : CountRow → Prop) (pre : list CountRow) r :
  (∃ x, x ∈ pre ++ [r] ∧ P x) ↔ (∃ x, x ∈ pre ∧ P x) ∨ P r.
Proof.
  split.
  - intros (x & Hx & HP). apply elem_of_app in Hx as [Hx|Hx]; [eauto|].
    apply list_elem_of_singleton in Hx as ->. by right.
  - intros [(x & Hx & HP)|HP].
    + exists x. split; [|done]. apply elem_of_app. by left.
    + exists r. split; [|done]. apply elem_of_app. right. by left.
Qed.

(** The entry a turn of the loop starts from, fresh or not, describes the
    rows of its source read so far. *)
Lemma entryOf_summarizes pre acc src :
  Summarizes pre acc →
  let e := entryOf (summary acc) src in
  sumOver slotCount (by_status e) = total e
  ∧ total e = counted (fromSource src) pre
  ∧ (∀ st, is_Some (by_status e !! st) ↔ ∃ r, r ∈ pre ∧ labelled src st r)
  ∧ (∀ st, slotOf e st = counted (labelled src st) pre)
  ∧ (∀ e', sumOver total (<[src := e']> (summary acc))
           = (total e' - total e + sumOver total (summary acc))%Z).
Proof.
  intros Hacc e. subst e. unfold entryOf, slotOf.
  destruct (summary acc !! src) as [e|] eqn:Hentry; simpl.
  - split_and!.
    + by apply (source_sum _ _ Hacc src).
    + by apply (source_total _ _ Hacc).
    + intros st. by apply (status_dom _ _ Hacc).
    + intros st. destruct (by_status e !! st) as [v|] eqn:Hslot.
      * by rewrite (status_count _ _ Hacc _ _ _ _ Hentry Hslot).
      * symmetry. apply counted_none. intros r Hr Hlabel.
        assert (Hsome : is_Some (by_status e !! st)).
        { apply (status_dom _ _ Hacc src); eauto. }
        rewrite Hslot in Hsome. by destruct Hsome.
    + intros e'. by apply sumOver_insert_old.
  - assert (Hnone : ∀ r, r ∈ pre → ¬ fromSource src r).
    { intros r Hr Hfrom.
      assert (Hsome : is_Some (summary acc !! src)).
      { apply (sources_dom _ _ Hacc). eauto. }
      rewrite Hentry in Hsome. by destruct Hsome. }
    split_and!.
    + apply sumOver_empty.
    + symmetry. by apply counted_none.
    + intros st. rewrite lookup_empty. split; [by intros [? ?]|].
      intros (r & Hr & Hfrom & _). by destruct (Hnone r Hr).
    + intros st. rewrite lookup_empty. symmetry. apply counted_none.
      intros r Hr [Hfrom _]. by destruct (Hnone r Hr).
    + intros e'. rewrite sumOver_insert_new by done. lia.
Qed.

Lemma stepPlain_summarizes pre acc r :
  Summarizes pre acc → Summarizes (pre ++ [r]) (stepPlain acc r).
Proof.
  intros Hacc.
  destruct (entryOf_summarizes pre acc (sourceLabel r) Hacc)
    as (Hsum & Htotal & Hdom & Hslot & Hsources).
  set (e := entryOf (summary acc) (sourceLabel r)) in *.
  unfold stepPlain. fold e.
  split; simpl.
  - rewrite sumCounts_snoc, (sum_all _ _ Hacc). done.
  - rewrite counted_snoc, (sum_processed _ _ Hacc).
    destruct (decide (isProcessed r)); lia.
  - rewrite counted_snoc, (sum_analysed _ _ Hacc).
    destruct (decide (isAnalysed r)); lia.
  - rewrite Hsources, sumCounts_snoc, (sum_sources _ _ Hacc). simpl. lia.
  - intros src. rewrite lookup_insert_is_Some', (sources_dom _ _ Hacc), exists_snoc.
    unfold fromSource. tauto.
  - intros src e'. rewrite counted_snoc. unfold fromSource at 2.
    destruct (decide (sourceLabel r = src)) as [<-|Hne].
    + rewrite lookup_insert_eq. intros [= <-]. simpl. rewrite Htotal. done.
    + rewrite lookup_insert_ne by done. intros He'.
      rewrite (source_total _ _ Hacc _ _ He'). lia.
  - intros src e'.
    destruct (decide (sourceLabel r = src)) as [<-|Hne].
    + rewrite lookup_insert_eq. intros [= <-]. simpl.
      destruct (by_status e !! statusLabel r) as [v|] eqn:Hv.
      * rewrite (sumOver_insert_old _ _ _ _ _ Hv). simpl.
        unfold slotOf. rewrite Hv. lia.
      * rewrite (sumOver_insert_new _ _ _ _ Hv). simpl.
        unfold slotOf. rewrite Hv. lia.
    + rewrite lookup_insert_ne by done. apply (source_sum _ _ Hacc).
  - intros src e' st.
    destruct (decide (sourceLabel r = src)) as [<-|Hne].
    + rewrite lookup_insert_eq. intros [= <-]. simpl.
      rewrite lookup_insert_is_Some', Hdom, exists_snoc.
      unfold labelled. intuition congruence.
    + rewrite lookup_insert_ne by done. intros He'.
      rewrite (status_dom _ _ Hacc _ _ st He'), exists_snoc.
      unfold labelled. intuition congruence.
  - intros src e' st v. rewrite counted_snoc. unfold labelled at 2.
    destruct (decide (sourceLabel r = src)) as [<-|Hne].
    + rewrite lookup_insert_eq. intros [= <-]. simpl.
      destruct (decide (statusLabel r = st)) as [<-|Hst].
      * rewrite lookup_insert_eq. intros [= <-]. rewrite Hslot.
        destruct (decide _) as [_|Hl]; [done|]. by destruct Hl.
      * rewrite lookup_insert_ne by done. intros Hv.
        destruct (decide _) as [[_ Hl]|_]; [done|].
        pose proof (Hslot st) as Hst'. unfold slotOf in Hst'. rewrite Hv in Hst'.
        destruct (summary acc !! sourceLabel r) as [e0|] eqn:He0.
        -- assert (e = e0) as -> by (subst e; unfold entryOf; by rewrite He0).
           rewrite (status_count _ _ Hacc _ _ _ _ He0 Hv). f_equal. lia.
        -- subst e. unfold entryOf in Hv. rewrite He0 in Hv. simpl in Hv.
           by rewrite lookup_empty in Hv.
    + rewrite lookup_insert_ne by done. intros He' Hv.
      destruct (decide _) as [[Hl _]|_]; [done|].
      rewrite (status_count _ _ Hacc _ _ _ _ He' Hv). f_equal. lia.
Qed.

Lemma start_summarizes : Summarizes [] start.
Proof.
  split; simpl; try done.
  - intros src. rewrite lookup_empty. split; [by intros [? ?]|].
    intros (r & Hr & _). by apply elem_of_nil in Hr.
Qed.

(** On plain rows the loop runs to its end and its variables describe all
    the rows. *)
Lemma loop_plain pre acc rows :
  Summarizes pre acc → Forall plain rows →
  ∃ acc', loop acc rows = Returns acc' ∧ Summarizes (pre ++ rows) acc'.
Proof.
  intros Hacc Hplain. revert pre acc Hacc.
  induction Hplain as [|r rows Hr _ IH]; intros pre acc Hacc; simpl.
  - exists acc. by rewrite app_nil_r.
  - rewrite (step_plain pre acc r Hacc Hr).
    destruct (IH (pre ++ [r]) (stepPlain acc r)) as (acc' & Hloop & Hacc').
    { by apply stepPlain_summarizes. }
    exists acc'. split; [done|]. by rewrite <- app_assoc in Hacc'.
Qed.

(** X1 (C5 on rows whose labels are not inherited names). The answer
    is 200; [total] is the sum of all counts and of all per-source totals;
    each per-source total is the sum of that source's per-status slots and
    of the counts of its rows; each slot is the sum of the counts of the
    rows with that source and status label; [total_processed] and
    [total_analysed] sum the counts of the rows whose status, whatever its
    case, is [processed], or [analysed] or [analyzed]; and every row is
    bucketed under its labels, a missing or empty one being ["unknown"]. *)
Theorem summarize_plain_rows (rows : list CountRow) :
  Forall plain rows →
  ∃ sources,
    summarize rows
    = reply 200 (SummaryBody sources (counted isProcessed rows)
                   (counted isAnalysed rows) (sumCounts rows))
    ∧ sumOver total sources = sumCounts rows
    ∧ (∀ src e,
         sources !! src = Some e →
         sumOver slotCount (by_status e) = total e
         ∧ total e = counted (fromSource src) rows)
    ∧ (∀ src e st v,
         sources !! src = Some e → by_status e !! st = Some v →
         v = Num (counted (labelled src st) rows)
         ∧ ∃ r, r ∈ rows ∧ labelled src st r)
    ∧ (∀ r,
         r ∈ rows →
         ∃ e v,
           sources !! orDefault (row_source r) "unknown" = Some e
           ∧ by_status e !! orDefault (row_status r) "unknown" = Some v).
Proof.
  intros Hplain.
  destruct (loop_plain [] start rows start_summarizes Hplain) as (acc & Hloop & Hacc).
  simpl in Hacc. exists (summary acc).
  unfold summarize. rewrite Hloop.
  rewrite (sum_all _ _ Hacc), (sum_processed _ _ Hacc), (sum_analysed _ _ Hacc).
  split_and!.
  - done.
  - apply (sum_sources _ _ Hacc).
  - intros src e He. split.
    + by apply (source_sum _ _ Hacc src).
    + by apply (source_total _ _ Hacc).
  - intros src e st v He Hv. split.
    + by apply (status_count _ _ Hacc _ _ _ _ He Hv).
    + apply (status_dom _ _ Hacc _ _ st He). by eexists.
  - intros r Hr.
    assert (Hsrc : is_Some (summary acc !! sourceLabel r)).
    { apply (sources_dom _ _ Hacc). by exists r. }
    destruct Hsrc as [e He]. exists e.
    assert (Hst : is_Some (by_status e !! statusLabel r)).
    { apply (status_dom _ _ Hacc _ _ _ He). by exists r. }
    destruct Hst as [v Hv]. by exists v.
Qed.

Lemma summarize_plain_rows_witness :
  ∃ sources,
    summarize exampleRows
    = reply 200 (SummaryBody sources (counted isProcessed exampleRows)
                   (counted isAnalysed exampleRows) (sumCounts exampleRows))
    ∧ sumOver total sources = sumCounts exampleRows
    ∧ (∀ src e,
         sources !! src = Some e →
         sumOver slotCount (by_status e) = total e
         ∧ total e = counted (fromSource src) exampleRows)
    ∧ (∀ src e st v,
         sources !! src = Some e → by_status e !! st = Some v →
         v = Num (counted (labelled src st) exampleRows)
         ∧ ∃ r, r ∈ exampleRows ∧ labelled src st r)
    ∧ (∀ r,
         r ∈ exampleRows →
         ∃ e v,
           sources !! orDefault (row_source r) "unknown" = Some e
           ∧ by_status e !! orDefault (row_status r) "unknown" = Some v).
Proof.
  apply (summarize_plain_rows exampleRows).
  repeat constructor; intros [text Htext]; vm_compute in Htext; discriminate.
Defined.

(** C5, at a failing input: a status label that a plain object inherits.
    The aggregate answers the single row [(Upload, __proto__, 3)]. Reading
    [status["__proto__"]] yields the prototype object, so [+] makes a
    string, and assigning a string to [__proto__] is ignored: the response
    is 200 with [sources.Upload.total = 3] and [total = 3], while the
    status record of [Upload] stays empty, so that its per-status counts sum
    to 0 and the row is bucketed under no status. *)
Theorem summarize_inherited_status_label :
  ∃ sources e,
    summarize protoStatusRows = reply 200 (SummaryBody sources 0 0 3)
    ∧ sources !! "Upload" = Some e
    ∧ total e = 3%Z
    ∧ by_status e = ∅
    ∧ sumOver slotCount (by_status e) = 0%Z.
Proof.
  eexists _, _. split_and!; vm_compute; reflexivity.
Qed.

(** On a source label that a plain object inherits, the loop raises a
    [TypeError] and the response is 500; on an inherited status label other
    than [__proto__] the slot holds a string. *)
Example summarize_inherited_labels :
  summarize constructorSourceRows
  = reply 500 (ErrorBody "Cannot read properties of undefined (reading 'pending')")
  ∧ ∃ sources e,
      summarize [ {| row_source := Some "Upload"; row_status := Some "constructor"; count := 7 |} ]
      = reply 200 (SummaryBody sources 0 0 7)
      ∧ sources !! "Upload" = Some e
      ∧ by_status e !! "constructor" = Some (Text "function Object() { [native code] }7").
Proof.
  split; [vm_compute; reflexivity|].
  eexists _, _. split_and!; vm_compute; reflexivity.
Qed.

(** The example of the spec. *)
Example summarize_example :
  summarize exampleRows
  = reply 200 (SummaryBody
      {[ "A" := {| by_status := {[ "processed" := Num 3; "analysed" := Num 2 ]}; total := 5 |};
         "B" := {| by_status := {[ "pending" := Num 1 ]}; total := 1 |} ]}
      3 2 6).
Proof.
  vm_compute. reflexivity.
Qed.

(** The route runs the loop on the answer of the aggregate. *)
Lemma getSummary_summarize (pg : Pool) (projectId : string) :
  truthy projectId = true →
  fault pg = None →
  getSummary (Some pg) projectId = summarize (selectCounts projectId (table pg)).
Proof.
  intros Hid Hfault. unfold getSummary. rewrite Hid, Hfault. done.
Qed.

(** * The Firebase module across calls *)

Import Lifecycle.

Lemma reachable_shape (st : Firebase.State) :
  reachable st → st = Firebase.initial ∨ ∃ b, st = holding b.
Proof.
  induction 1 as [|env sdk st _ [->|[b ->]]]; [by left| |by right; exists b].
  unfold Firebase.getBucket, Firebase.initIfPossible. simpl.
  destruct (Firebase.serviceAccount sdk) as [sa|]; simpl; [|by left].
  destruct (Firebase.initializeApp sdk sa _) as [b|e]; simpl; [|by left].
  right. by exists b.
Qed.

Lemma getBucket_holds (env : Env) (sdk : Firebase.Sdk)
    (st st' : Firebase.State) (b : Firebase.Bucket) :
  reachable st →
  Firebase.getBucket env sdk st = (st', Returns b) →
  st' = holding b.
Proof.
  intros Hst Hget.
  destruct (reachable_shape st Hst) as [->|[b0 ->]].
  - unfold Firebase.getBucket, Firebase.initIfPossible in Hget. simpl in Hget.
    destruct (Firebase.serviceAccount sdk) as [sa|]; simpl in Hget; [|done].
    destruct (Firebase.initializeApp sdk sa _) as [b1|e]; simpl in Hget; by simplify_eq.
  - unfold Firebase.getBucket, Firebase.initIfPossible in Hget. simpl in Hget.
    by simplify_eq.
Qed.

(** X2. Once [getBucket] has returned a bucket, the module holds it: every
    later call, whatever the environment and the credentials have become,
    returns the same bucket and leaves the module as it is, without
    initialising the SDK again. *)
Theorem getBucket_caches_bucket (env : Env) (sdk : Firebase.Sdk)
    (st st' : Firebase.State) (b : Firebase.Bucket) :
  reachable st →
  Firebase.getBucket env sdk st = (st', Returns b) →
  st' = holding b
  ∧ ∀ env' sdk', Firebase.getBucket env' sdk' st' = (st', Returns b).
Proof.
  intros Hst Hget.
  rewrite (getBucket_holds _ _ _ _ _ Hst Hget). done.
Qed.

Lemma getBucket_caches_bucket_witness :
  fst (Firebase.getBucket Samples.environment
         (Samples.credentialsFor Samples.acceptingBucket) Firebase.initial)
  = holding Samples.acceptingBucket
  ∧ ∀ env' sdk',
      Firebase.getBucket env' sdk'
        (fst (Firebase.getBucket Samples.environment
                (Samples.credentialsFor Samples.acceptingBucket) Firebase.initial))
      = (fst (Firebase.getBucket Samples.environment
                (Samples.credentialsFor Samples.acceptingBucket) Firebase.initial),
         Returns Samples.acceptingBucket).
Proof.
  apply (getBucket_caches_bucket Samples.environment
           (Samples.credentialsFor Samples.acceptingBucket) Firebase.initial).
  - constructor.
  - reflexivity.
Defined.

(** X3. A failed [getBucket] is not remembered: it leaves the module
    uninitialised, it fails either for want of a service account (with the
    fixed message) or with the exception of the SDK's initialisation, and a
    later call made with credentials the SDK accepts initialises the module
    and returns the bucket. *)
Theorem getBucket_failure_is_retried (env : Env) (sdk : Firebase.Sdk)
    (st st' : Firebase.State) (e : string) :
  reachable st →
  Firebase.getBucket env sdk st = (st', Throws e) →
  st' = Firebase.initial
  ∧ ((Firebase.serviceAccount sdk = None ∧ e = Firebase.notInitialized)
     ∨ ∃ sa,
         Firebase.serviceAccount sdk = Some sa
         ∧ Firebase.initializeApp sdk sa (orDefault (FIREBASE_STORAGE_BUCKET env) "policy-file")
           = Throws e)
  ∧ ∀ env' sdk' sa b,
      Firebase.serviceAccount sdk' = Some sa →
      Firebase.initializeApp sdk' sa (orDefault (FIREBASE_STORAGE_BUCKET env') "policy-file")
      = Returns b →
      Firebase.getBucket env' sdk' st' = (holding b, Returns b).
Proof.
  intros Hst Hget.
  destruct (reachable_shape st Hst) as [->|[b0 ->]].
  - unfold Firebase.getBucket, Firebase.initIfPossible in Hget. simpl in Hget.
    destruct (Firebase.serviceAccount sdk) as [sa|] eqn:Hsa; simpl in Hget.
    + destruct (Firebase.initializeApp sdk sa _) as [b1|e1] eqn:Hinit;
        simpl in Hget; simplify_eq.
      split_and!; [done|right; by exists sa|].
      intros env' sdk' sa' b Hsa' Hinit'.
      unfold Firebase.getBucket, Firebase.initIfPossible. simpl.
      rewrite Hsa', Hinit'. done.
    + simplify_eq. split_and!; [done|by left|].
      intros env' sdk' sa' b Hsa' Hinit'.
      unfold Firebase.getBucket, Firebase.initIfPossible. simpl.
      rewrite Hsa', Hinit'. done.
  - unfold Firebase.getBucket, Firebase.initIfPossible in Hget. simpl in Hget.
    by simplify_eq.
Qed.

Lemma getBucket_failure_is_retried_witness :
  fst (Firebase.getBucket Samples.environment Samples.noCredentials Firebase.initial)
  = Firebase.initial
  ∧ Firebase.getBucket Samples.environment
      (Samples.credentialsFor Samples.acceptingBucket)
      (fst (Firebase.getBucket Samples.environment Samples.noCredentials Firebase.initial))
    = (holding Samples.acceptingBucket, Returns Samples.acceptingBucket).
Proof.
  destruct (getBucket_failure_is_retried Samples.environment Samples.noCredentials
              Firebase.initial Firebase.initial Firebase.notInitialized)
    as (Hstate & _ & Hretry).
  - constructor.
  - reflexivity.
  - split; [reflexivity|].
    apply (Hretry Samples.environment (Samples.credentialsFor Samples.acceptingBucket)
             "service-account" Samples.acceptingBucket); reflexivity.
Defined.

(** The handler leaves the Firebase module as its one call of [getBucket]
    does, or untouched when the request has no file. *)
Lemma upload_firebase_after (p : Process) (fb : Firebase.State)
    (pool : option Database.Pool) (req : Request) :
  firebase_after (upload p fb pool req)
  = match file req with
    | None => fb
    | Some _ => fst (Firebase.getBucket (env p) (sdk p) fb)
    end.
Proof.
  upload_cases; done.
Qed.

Lemma upload_firebase_call (p : Process) (fb : Firebase.State)
    (pool : option Database.Pool) (req : Request) :
  occurrences isFirebaseCall (effects (upload p fb pool req)) ≠ 0 →
  ∃ f fb' b,
    file req = Some f
    ∧ Firebase.getBucket (env p) (sdk p) fb = (fb', Returns b).
Proof.
  unfold occurrences. upload_cases; try done; eauto.
Qed.

(** X4. The Primary is sticky. Once a request has written to Firebase, the
    module is initialised for the life of the process: no later request,
    whatever its process values, ever attempts the Fallback, even when
    its Firebase write fails; a later request with a file starts with a
    Firebase write into the same bucket. *)
Theorem upload_primary_is_sticky (p : Process) (fb : Firebase.State)
    (pool : option Database.Pool) (req : Request) :
  reachable fb →
  occurrences isFirebaseCall (effects (upload p fb pool req)) ≠ 0 →
  ∃ b,
    firebase_after (upload p fb pool req) = holding b
    ∧ ∀ p' pool' req',
        let o' := upload p' (firebase_after (upload p fb pool req)) pool' req' in
        occurrences isSupabaseUpload (effects o') = 0
        ∧ firebase_after o' = holding b
        ∧ ∀ f',
            file req' = Some f' →
            head (effects o')
            = Some (FirebaseWrite (Firebase.bucket_name b) (dest p' f') (mimetype f') (buffer f')).
Proof.
  intros Hfb Hcall.
  destruct (upload_firebase_call _ _ _ _ Hcall) as (f & fb' & b & Hfile & Hget).
  pose proof (getBucket_holds _ _ _ _ _ Hfb Hget) as ->.
  assert (Hafter : firebase_after (upload p fb pool req) = holding b).
  { by rewrite upload_firebase_after, Hfile, Hget. }
  exists b. split; [done|]. rewrite Hafter.
  intros p' pool' req' o'. subst o'.
  rewrite upload_firebase_after.
  unfold upload, occurrences, dest.
  destruct (file req') as [f'|]; [|by split_and!].
  change (Firebase.getBucket (env p') (sdk p') (holding b)) with (holding b, Returns b).
  simpl. split_and!.
  - repeat (case_match; simplify_eq/=); done.
  - done.
  - intros ? [= <-]. repeat (case_match; simplify_eq/=); done.
Qed.

Lemma upload_primary_is_sticky_witness :
  ∃ b,
    firebase_after
      (upload (Samples.processWith (Samples.credentialsFor Samples.rejectingBucket)
                 (Some Samples.client))
         Firebase.initial (Some Samples.store) (Samples.requestFor (Some "p1")))
    = holding b
    ∧ ∀ p' pool' req',
        let o' :=
          upload p'
            (firebase_after
               (upload (Samples.processWith (Samples.credentialsFor Samples.rejectingBucket)
                          (Some Samples.client))
                  Firebase.initial (Some Samples.store) (Samples.requestFor (Some "p1"))))
            pool' req' in
        occurrences isSupabaseUpload (effects o') = 0
        ∧ firebase_after o' = holding b
        ∧ ∀ f',
            file req' = Some f' →
            head (effects o')
            = Some (FirebaseWrite (Firebase.bucket_name b) (dest p' f') (mimetype f') (buffer f')).
Proof.
  apply (upload_primary_is_sticky
           (Samples.processWith (Samples.credentialsFor Samples.rejectingBucket)
              (Some Samples.client))
           Firebase.initial (Some Samples.store) (Samples.requestFor (Some "p1"))).
  - constructor.
  - vm_compute. discriminate.
Defined.

(** * Answers and side effects of [POST /upload] *)

Import Answers.

(** X5. Every upload request is answered 200, 400 or 500. The body is
    [{ error }] exactly when the status is not 200. A 400 is answered only
    for a missing file or a missing [project_id]; in the second case the
    object has been written and signed by then. A 200 that carries a
    [document_id] is answered only after the insert was sent. *)
Theorem upload_status_and_body (p : Process) (fb : Firebase.State)
    (pool : option Database.Pool) (req : Request) :
  let o := upload p fb pool req in
  ((Server.status (response o) = 200%Z ∧ isError (Server.json (response o)) = false)
   ∨ ((Server.status (response o) = 400%Z ∨ Server.status (response o) = 500%Z)
      ∧ isError (Server.json (response o)) = true))
  ∧ (Server.status (response o) = 400%Z →
       (file req = None ∧ effects o = [])
       ∨ (truthyO (projectIdOf req) = false
          ∧ occurrences isSupabaseUpload (effects o) = 1
          ∧ occurrences isInsert (effects o) = 0))
  ∧ (∀ i message name url,
       Server.json (response o) = UploadedBody i message name url →
       Server.status (response o) = 200%Z
       ∧ message = "upload successfully"
       ∧ i = uuid p
       ∧ occurrences isInsert (effects o) = 1).
Proof.
  intros o. subst o. unfold projectIdOf, occurrences. split_and!.
  - upload_cases; auto.
  - upload_cases; intros; simplify_eq; auto.
    right. split_and!; try done.
    by match goal with H : negb (truthy _) = true |- _ =>
         apply negb_true_iff in H; rewrite H end.
  - intros i message name url. upload_cases; intros; by simplify_eq.
Qed.

(** X6. When the Primary client is available, its write stream finishes
    and the signing resolves, the answer is 200 [{ name, url }] with [name]
    the stored key; when the signing rejects, the answer is 500 although the
    object has been written. Either way the form fields, the Fallback client
    and the pool play no part: the effects are the Firebase write and the
    signing request, and the pool is left as it was. *)
Theorem upload_primary_path (p : Process) (fb fb' : Firebase.State)
    (pool : option Database.Pool) (req : Request) (f : File) (b : Firebase.Bucket) :
  file req = Some f →
  Firebase.getBucket (env p) (sdk p) fb = (fb', Returns b) →
  Firebase.fb_write b (dest p f) (mimetype f) (buffer f) = Firebase.StreamFinish →
  let o := upload p fb pool req in
  effects o
  = [FirebaseWrite (Firebase.bucket_name b) (dest p f) (mimetype f) (buffer f);
     FirebaseGetSignedUrl (Firebase.bucket_name b) (dest p f) (now_finish p + 3600 * 1000)]
  ∧ pool_after o = pool
  ∧ firebase_after o = fb'
  ∧ (∀ url,
       Firebase.fb_getSignedUrl b (dest p f) (now_finish p + 3600 * 1000) = Returns url →
       response o = {| Server.status := 200; Server.json := StoredBody (dest p f) url |})
  ∧ (∀ err,
       Firebase.fb_getSignedUrl b (dest p f) (now_finish p + 3600 * 1000) = Throws err →
       response o = {| Server.status := 500; Server.json := Server.ErrorBody err |}).
Proof.
  intros Hfile Hget Hwrite o. subst o. unfold dest in *.
  unfold upload. rewrite Hfile, Hget. simpl. rewrite Hwrite.
  change (now_finish p + 60 * 60 * 1000)%Z with (now_finish p + 3600 * 1000)%Z.
  destruct (Firebase.fb_getSignedUrl b _ _) as [url|err]; simpl;
    split_and!; try done; intros; by simplify_eq.
Qed.

Lemma upload_primary_path_witness :
  let p := Samples.processWith (Samples.credentialsFor Samples.acceptingBucket) None in
  let o := upload p Firebase.initial None (Samples.requestFor None) in
  effects o
  = [FirebaseWrite "policy-file" "1700000000000_report.pdf" "application/pdf" "%PDF-1.7";
     FirebaseGetSignedUrl "policy-file" "1700000000000_report.pdf" 1700003600250]
  ∧ response o
    = {| Server.status := 200;
         Server.json := StoredBody "1700000000000_report.pdf"
                          "https://storage.googleapis.com/1700000000000_report.pdf" |}.
Proof.
  destruct (upload_primary_path
              (Samples.processWith (Samples.credentialsFor Samples.acceptingBucket) None)
              Firebase.initial (Lifecycle.holding Samples.acceptingBucket)
              None (Samples.requestFor None) Samples.report Samples.acceptingBucket
              eq_refl eq_refl eq_refl) as (Heffects & _ & _ & Hok & _).
  split; [exact Heffects|].
  apply Hok. reflexivity.
Defined.

(** X7. When the Fallback write is made and succeeds, the signing answers
    without error and a [project_id] is supplied, but no pool is
    configured, the answer is 500 ["DATABASE_URL not configured"]; when the
    pool is configured and the store rejects the insert, the answer is 500
    with the store's message. In both cases the object has been written and
    signed, nothing removes it, and the pool is as before. *)
Theorem upload_leaves_orphan_object (p : Process) (fb : Firebase.State)
    (pool : option Database.Pool) (req : Request) (sb : SupabaseClient)
    (bucketName key data contentType projectId : string) (signed : SignedResult) :
  let o := upload p fb pool req in
  In (SupabaseUpload bucketName key data contentType) (effects o) →
  supabase p = Some sb →
  sb_upload sb bucketName key data contentType = Returns None →
  sb_createSignedUrl sb bucketName key 3600 = Returns signed →
  signed_error signed = None →
  projectIdOf req = Some projectId →
  truthy projectId = true →
  (pool = None →
     response o
     = {| Server.status := 500; Server.json := Server.ErrorBody "DATABASE_URL not configured" |}
     ∧ effects o
       = [SupabaseUpload bucketName key data contentType;
          SupabaseCreateSignedUrl bucketName key 3600]
     ∧ pool_after o = None)
  ∧ (∀ pg dbErr,
       pool = Some pg → Database.fault pg = Some dbErr →
       response o = {| Server.status := 500; Server.json := Server.ErrorBody dbErr |}
       ∧ pool_after o = Some pg
       ∧ ∃ f,
           file req = Some f
           ∧ effects o
             = [SupabaseUpload bucketName key data contentType;
                SupabaseCreateSignedUrl bucketName key 3600;
                DatabaseInsert (uuid p) projectId (originalname f) key "Upload" "pending" None]).
Proof.
  intros o Hmade Hclient Hup Hsign Herr Hpid Hpidt. subst o.
  destruct (fallback_write_made _ _ _ _ _ _ _ _ Hmade)
    as (f & sb' & Hfile & (fb' & fbErr & Hget) & (Hsb & Hbucket & Htruthy) & -> & -> & ->).
  assert (sb' = sb) as -> by congruence.
  unfold projectIdOf, dest in *.
  unfold upload. rewrite Hfile, Hget, Hsb.
  unfold uploadToSupabase. rewrite Hbucket, Htruthy. simpl.
  rewrite Hup. change (60 * 60)%Z with 3600%Z. rewrite Hsign, Herr, Hpid, Hpidt. simpl.
  split.
  - intros ->. done.
  - intros pg dbErr -> Hfault. unfold Database.insertDocument. rewrite Hfault. simpl.
    split_and!; [done|done|]. by exists f.
Qed.

Lemma upload_leaves_orphan_object_witness :
  let p := Samples.processWith Samples.noCredentials (Some Samples.client) in
  let o := upload p Firebase.initial None (Samples.requestFor (Some "p1")) in
  response o
  = {| Server.status := 500; Server.json := Server.ErrorBody "DATABASE_URL not configured" |}
  ∧ effects o
    = [SupabaseUpload "policies" "1700000000000_report.pdf" "%PDF-1.7" "application/pdf";
       SupabaseCreateSignedUrl "policies" "1700000000000_report.pdf" 3600]
  ∧ pool_after o = None.
Proof.
  destruct (upload_leaves_orphan_object
              (Samples.processWith Samples.noCredentials (Some Samples.client))
              Firebase.initial None (Samples.requestFor (Some "p1"))
              Samples.client "policies" "1700000000000_report.pdf" "%PDF-1.7"
              "application/pdf" "p1"
              {| signed_data :=
                   Some {| signedUrl := "https://signed/policies/1700000000000_report.pdf" |};
                 signed_error := None |}) as [Hnone _].
  - left. reflexivity.
  - reflexivity.
  - reflexivity.
  - reflexivity.
  - reflexivity.
  - reflexivity.
  - reflexivity.
  - apply Hnone. reflexivity.
Defined.

(** X8. An upload never changes or removes a row: the pool keeps its fault
    and its clock, and its table afterwards is the table before followed by
    at most one row. A row is added exactly when the insert was sent and
    the store accepted it (whatever the response then is), and it is the
    row [(uuid, project_id, originalName, stored key, "Upload", "pending",
    null)] stamped by the store. *)
Theorem upload_appends_at_most_one_row (p : Process) (fb : Firebase.State)
    (pool : option Database.Pool) (req : Request) :
  let o := upload p fb pool req in
  (pool = None → pool_after o = None)
  ∧ ∀ pg,
      pool = Some pg →
      ∃ rows,
        pool_after o
        = Some {| Database.table := Database.table pg ++ rows;
                  Database.fault := Database.fault pg;
                  Database.clock := Database.clock pg |}
        ∧ (rows = [] ∨ ∃ f projectId,
             file req = Some f
             ∧ projectIdOf req = Some projectId
             ∧ rows
               = [{| Database.id := uuid p; Database.project_id := projectId;
                     Database.filename := Some (originalname f);
                     Database.file_path := Some (dest p f);
                     Database.source := Some "Upload";
                     Database.status := Some "pending";
                     Database.document_content := None;
                     Database.created_at := Database.clock pg |}])
        ∧ (rows ≠ [] ↔ sendsInsert o ∧ Database.fault pg = None).
Proof.
  intros o. subst o. unfold sendsInsert, occurrences, projectIdOf, dest. split.
  - intros ->. upload_cases; done.
  - intros pg ->.
    assert (Hsame : pg
                    = {| Database.table := Database.table pg ++ [];
                         Database.fault := Database.fault pg;
                         Database.clock := Database.clock pg |}).
    { rewrite app_nil_r. by destruct pg. }
    upload_cases;
      first
        [ exists []; split_and!;
          [ by f_equal
          | by left
          | split; [by intros Hne; destruct Hne
                   |intros [Hne Hf]; first [by destruct Hne|by simplify_eq|congruence]] ]
        | eexists [_]; split_and!;
          [ reflexivity
          | right; eexists _, _; split_and!; eauto
          | split; [done|intros _; done] ] ].
Qed.

(** * The handler and its earlier revision *)

(** X9. The handler extends its earlier revision, which never touches the
    database, by steps that follow the signing only. Both leave the Firebase
    module in the same state and make the same calls to the storage
    backends, in the same order, the handler adding at most the insert.
    Whenever the handler answers 200, the earlier revision answers 200 with
    the same [name] and [url]; and on a request that does not write to the
    Fallback the two outcomes are equal. *)
Theorem upload_extends_earlier_revision (p : Process) (fb : Firebase.State)
    (pool : option Database.Pool) (req : Request) :
  let o := upload p fb pool req in
  let o' := Earlier.upload p fb pool req in
  pool_after o' = pool
  ∧ firebase_after o' = firebase_after o
  ∧ effects o = effects o' ++ List.filter isInsert (effects o)
  ∧ (occurrences isSupabaseUpload (effects o) = 0 → o = o')
  ∧ (Server.status (response o) = 200%Z →
       ∃ name url,
         response o' = {| Server.status := 200; Server.json := StoredBody name url |}
         ∧ (Server.json (response o) = StoredBody name url
            ∨ ∃ i message, Server.json (response o) = UploadedBody i message name url)).
Proof.
  intros o o'. subst o o'.
  unfold Earlier.upload, Earlier.uploadToSupabase, occurrences.
  split_and!.
  - upload_cases; done.
  - upload_cases; done.
  - upload_cases; done.
  - upload_cases; done.
  - upload_cases; try done; intros _; eexists _, _; split; eauto.
Qed.

(** * Stored names and URL text *)

Import Text.

Lemma uint_no_underscore (d : Decimal.uint) :
  ¬ occurs "_" (NilEmpty.string_of_uint d).
Proof.
  induction d; simpl; [tauto|..]; intros [H|H]; solve [discriminate H | auto].
Qed.

Lemma toString_no_underscore (n : Z) : ¬ occurs "_" (toString n).
Proof.
  assert (Huint : ∀ d, ¬ occurs "_" (NilZero.string_of_uint d)).
  { intros d. unfold NilZero.string_of_uint.
    destruct d; try apply uint_no_underscore.
    simpl. intros [H|[]]. discriminate H. }
  unfold toString, NilZero.string_of_int.
  destruct (Z.to_int n) as [d|d]; [apply Huint|].
  simpl. intros [H|H]; [discriminate H|]. by apply Huint in H.
Qed.

Lemma toString_inj (a b : Z) : toString a = toString b → a = b.
Proof.
  unfold toString. intros Heq.
  apply DecimalZ.to_int_inj.
  assert (Hok : ∀ n, Z.to_int n ≠ Decimal.Pos Decimal.Nil
                     ∧ Z.to_int n ≠ Decimal.Neg Decimal.Nil).
  { intros [|q|q]; simpl; split; try discriminate;
      intros [= H]; by apply DecimalPos.Unsigned.to_uint_nonnil in H. }
  destruct (Hok a) as [Ha1 Ha2], (Hok b) as [Hb1 Hb2].
  pose proof (NilZero.isi _ Ha1 Ha2) as Ha.
  pose proof (NilZero.isi _ Hb1 Hb2) as Hb.
  rewrite Heq in Ha. congruence.
Qed.

(** The first underscore of a string separates what stands before it. *)
Lemma split_at_underscore (s1 s2 n1 n2 : string) :
  ¬ occurs "_" s1 → ¬ occurs "_" s2 →
  s1 +:+ "_" +:+ n1 = s2 +:+ "_" +:+ n2 →
  s1 = s2 ∧ n1 = n2.
Proof.
  revert s2. induction s1 as [|c s1 IH]; intros [|c' s2] H1 H2 Heq; simpl in *.
  - by simplify_eq.
  - simplify_eq. tauto.
  - simplify_eq. tauto.
  - injection Heq as -> Heq.
    destruct (IH s2) as [-> ->]; [tauto|tauto|done|done].
Qed.

(** X10. The stored name determines the upload: two requests get the same
    storage key only if they were received in the same millisecond and
    carry the same original name. So distinct original names never collide,
    whatever the clock, and the key is longer than the original name. *)
Theorem storedName_injective (timestamp timestamp' : Z) (name name' : string) :
  Server.storedName timestamp name = Server.storedName timestamp' name' →
  timestamp = timestamp' ∧ name = name'
  ∧ String.length name < String.length (Server.storedName timestamp name).
Proof.
  unfold Server.storedName. intros Heq.
  destruct (split_at_underscore _ _ _ _ (toString_no_underscore timestamp)
              (toString_no_underscore timestamp') Heq) as [Hts ->].
  split_and!; [by apply toString_inj|done|].
  rewrite !string_length_app. simpl. lia.
Qed.

Lemma storedName_injective_witness :
  1700000000000%Z = 1700000000000%Z ∧ "report.pdf" = "report.pdf"
  ∧ String.length "report.pdf"
    < String.length (Server.storedName 1700000000000 "report.pdf").
Proof.
  apply (storedName_injective 1700000000000 1700000000000 "report.pdf" "report.pdf").
  reflexivity.
Defined.

Lemma encodeChar_cases (c : ascii) :
  (unreserved c = true ∧ encodeChar c = String c EmptyString)
  ∨ (unreserved c = false
     ∧ encodeChar c
       = String "%" (String (hexDigit (nat_of_ascii c / 16))
                       (String (hexDigit (nat_of_ascii c mod 16)) EmptyString))).
Proof.
  unfold encodeChar. destruct (unreserved c); [by left|by right].
Qed.

Lemma nat_of_ascii_digits (c : ascii) :
  nat_of_ascii c / 16 < 16 ∧ nat_of_ascii c mod 16 < 16.
Proof.
  pose proof (nat_ascii_bounded c) as Hc. split.
  - apply Nat.Div0.div_lt_upper_bound. lia.
  - apply Nat.mod_upper_bound. lia.
Qed.

Lemma hexDigit_unreserved (n : nat) : n < 16 → unreserved (hexDigit n) = true.
Proof.
  intros Hn. do 16 (destruct n as [|n]; [reflexivity|]). lia.
Qed.

Lemma hexDigit_inj (a b : nat) : a < 16 → b < 16 → hexDigit a = hexDigit b → a = b.
Proof.
  intros Ha Hb.
  do 16 (destruct a as [|a];
         [do 16 (destruct b as [|b]; [first [reflexivity|discriminate]|]); lia|]).
  lia.
Qed.

Lemma allChars_app (test : ascii → bool) (a b : string) :
  allChars test (a +:+ b) ↔ allChars test a ∧ allChars test b.
Proof.
  induction a as [|c a IH]; simpl; [tauto|]. rewrite IH. tauto.
Qed.

Lemma allChars_occurs (test : ascii → bool) (c : ascii) (s : string) :
  allChars test s → test c = false → ¬ occurs c s.
Proof.
  induction s as [|c' s IH]; simpl; [tauto|].
  intros [Hc' Hs] Hc [->|Hin]; [congruence|by apply IH].
Qed.

Lemma encodeChar_encoded (c : ascii) : allChars encoded (encodeChar c).
Proof.
  destruct (nat_of_ascii_digits c) as [Hhi Hlo].
  destruct (encodeChar_cases c) as [[Hc ->]|[_ ->]].
  - split; [|exact I]. unfold encoded. by rewrite Hc.
  - split; [reflexivity|]. split; [|split; [|exact I]]; unfold encoded.
    + by rewrite (hexDigit_unreserved _ Hhi).
    + by rewrite (hexDigit_unreserved _ Hlo).
Qed.

Lemma encodeChar_length (c : ascii) :
  (1 ≤ String.length (encodeChar c) ≤ 3)%nat.
Proof.
  destruct (encodeChar_cases c) as [[_ ->]|[_ ->]]; simpl; lia.
Qed.

Lemma encodeURIComponent_encoded (s : string) :
  allChars encoded (encodeURIComponent s).
Proof.
  induction s as [|c s IH]; simpl; [done|].
  apply allChars_app. split; [apply encodeChar_encoded|done].
Qed.

(** X11. On a string given by its UTF-8 bytes, which is how
    [encodeURIComponent] reads its argument, the encoding puts out
    unreserved characters and percent signs only, so its output holds no
    slash, question mark, hash, ampersand or space; a string of unreserved
    characters is left as it is; and the output has between one and three
    characters for each UTF-8 byte of the input (not for each character: a
    character outside ASCII is several bytes, each of them escaped). *)
Theorem encodeURIComponent_alphabet (s : string) :
  allChars encoded (encodeURIComponent s)
  ∧ Forall (λ c, ¬ occurs c (encodeURIComponent s)) ["/"; "?"; "#"; "&"; " "]%char
  ∧ (allChars unreserved s → encodeURIComponent s = s)
  ∧ (String.length s ≤ String.length (encodeURIComponent s) ≤ 3 * String.length s)%nat.
Proof.
  split_and!.
  - apply encodeURIComponent_encoded.
  - repeat constructor;
      (apply (allChars_occurs encoded); [apply encodeURIComponent_encoded|reflexivity]).
  - induction s as [|c s IH]; simpl; [done|].
    intros [Hc Hs]. unfold encodeChar. rewrite Hc, (IH Hs). done.
  - induction s as [|c s IH]; simpl; [lia|].
    rewrite string_length_app. pose proof (encodeChar_length c). lia.
  - induction s as [|c s IH]; simpl; [lia|].
    rewrite string_length_app. pose proof (encodeChar_length c). lia.
Qed.

(** X12. [encodeURIComponent] loses nothing: two strings with the same
    encoding are equal, so distinct object paths get distinct public and
    media URLs. *)
Theorem encodeURIComponent_injective (s s' : string) :
  encodeURIComponent s = encodeURIComponent s' →
  s = s'
  ∧ ∀ supabaseUrl bucket fbBucket,
      publicUrl supabaseUrl bucket s = publicUrl supabaseUrl bucket s'
      ∧ mediaUrl fbBucket s = mediaUrl fbBucket s'.
Proof.
  intros Heq.
  assert (Hs : s = s'); [|by subst].
  revert s' Heq. induction s as [|c s IH]; intros [|c' s'] Heq; simpl in Heq.
  - done.
  - destruct (encodeChar_cases c') as [[_ Hc']|[_ Hc']]; rewrite Hc' in Heq; discriminate.
  - destruct (encodeChar_cases c) as [[_ Hc]|[_ Hc]]; rewrite Hc in Heq; discriminate.
  - destruct (nat_of_ascii_digits c) as [Hhi Hlo].
    destruct (nat_of_ascii_digits c') as [Hhi' Hlo'].
    destruct (encodeChar_cases c) as [[Hu Hc]|[Hu Hc]];
      destruct (encodeChar_cases c') as [[Hu' Hc']|[Hu' Hc']];
      rewrite Hc, Hc' in Heq; cbn [String.append] in Heq.
    + injection Heq as -> Heq. by rewrite (IH s').
    + injection Heq as -> Heq. discriminate Hu.
    + injection Heq as <- Heq. discriminate Hu'.
    + injection Heq as H1 H2 Heq.
      pose proof (hexDigit_inj _ _ Hhi Hhi' H1) as Hq.
      pose proof (hexDigit_inj _ _ Hlo Hlo' H2) as Hr.
      pose proof (Nat.div_mod_eq (nat_of_ascii c) 16) as Hd.
      pose proof (Nat.div_mod_eq (nat_of_ascii c') 16) as Hd'.
      assert (Hn : nat_of_ascii c = nat_of_ascii c') by congruence.
      rewrite <- (ascii_nat_embedding c), <- (ascii_nat_embedding c'), Hn.
      by rewrite (IH s').
Qed.

Lemma encodeURIComponent_injective_witness :
  "reports/q1.pdf" = "reports/q1.pdf"
  ∧ ∀ supabaseUrl bucket fbBucket,
      publicUrl supabaseUrl bucket "reports/q1.pdf"
      = publicUrl supabaseUrl bucket "reports/q1.pdf"
      ∧ mediaUrl fbBucket "reports/q1.pdf" = mediaUrl fbBucket "reports/q1.pdf".
Proof.
  apply (encodeURIComponent_injective "reports/q1.pdf" "reports/q1.pdf").
  reflexivity.
Defined.

Lemma stripLeadingSlashes_relative (s : string) :
  ¬ startsWithSlash (stripLeadingSlashes s).
Proof.
  induction s as [|c s IH]; simpl; [tauto|].
  destruct (Ascii.eqb_spec c "/"); [done|]. simpl. done.
Qed.

Lemma stripLeadingSlashes_fixed (s : string) :
  ¬ startsWithSlash s → stripLeadingSlashes s = s.
Proof.
  destruct s as [|c s]; simpl; [done|].
  destruct (Ascii.eqb_spec c "/"); [tauto|done].
Qed.

(** X13. The path the preview route works with never begins with a slash:
    stripping removes every leading slash, leaves a filename without one
    untouched and changes nothing when applied again, and every signing
    request of the route is made for such a path. *)
Theorem preview_path_is_relative (s : string) :
  ¬ startsWithSlash (stripLeadingSlashes s)
  ∧ stripLeadingSlashes (stripLeadingSlashes s) = stripLeadingSlashes s
  ∧ (¬ startsWithSlash s → stripLeadingSlashes s = s)
  ∧ ∀ env supabase pool docId,
      Forall relativePath (snd (getPreviewUrl env supabase pool docId)).
Proof.
  split_and!.
  - apply stripLeadingSlashes_relative.
  - apply stripLeadingSlashes_fixed, stripLeadingSlashes_relative.
  - apply stripLeadingSlashes_fixed.
  - intros env supabase pool docId.
    unfold getPreviewUrl, query, previewOf, normalize.
    repeat case_match; simplify_eq/=; repeat constructor;
      apply stripLeadingSlashes_relative.
Qed.

Lemma stripTrailingSlash_app (u : string) : stripTrailingSlash (u +:+ "/") = u.
Proof.
  induction u as [|c u IH]; [done|].
  change (String c u +:+ "/") with (String c (u +:+ "/")).
  simpl. rewrite IH. destruct u; done.
Qed.

Lemma stripTrailingSlash_fixed (u : string) :
  ¬ endsWithSlash u → stripTrailingSlash u = u.
Proof.
  induction u as [|c u IH]; [done|]. simpl.
  destruct u as [|c' u].
  - destruct (Ascii.eqb_spec c "/"); [tauto|done].
  - intros Hu. by rewrite IH.
Qed.

(** X14. The public object URL does not depend on whether [SUPABASE_URL]
    is written with a trailing slash: exactly one is dropped, so a base
    with one trailing slash and the same base without it give the same URL,
    the base followed by [/storage/v1/object/public/<bucket>/<encoded
    path>]. *)
Theorem publicUrl_trailing_slash (base bucket path : string) :
  publicUrl (base +:+ "/") bucket path
  = base +:+ "/storage/v1/object/public/" +:+ bucket +:+ "/" +:+ encodeURIComponent path
  ∧ (¬ endsWithSlash base →
     publicUrl base bucket path = publicUrl (base +:+ "/") bucket path).
Proof.
  unfold publicUrl. rewrite stripTrailingSlash_app. split; [done|].
  intros Hbase. by rewrite stripTrailingSlash_fixed.
Qed.

(** * The aggregate and the summary of a project *)

Import Census.

Section Tally.

(** A test on rows of the aggregate that looks at the pair only. *)
Context (P : CountRow → Prop) `{!∀ r, Decision (P r)}.
Context (Hpair : ∀ g g', groupKey g = groupKey g' → P g ↔ P g').

Lemma counted_cons g gs :
  counted P (g :: gs) = ((if decide (P g) then count g else 0) + counted P gs)%Z.
Proof.
  unfold counted, sumCounts. rewrite filter_cons.
  destruct (decide (P g)); rewrite ?fmap_cons; simpl; lia.
Qed.

Lemma counted_tally src st gs :
  counted P (tally src st gs)
  = (counted P gs
     + if decide (P {| row_source := src; row_status := st; count := 1 |}) then 1 else 0)%Z.
Proof.
  induction gs as [|g gs IH]; simpl.
  - rewrite counted_cons. unfold counted, sumCounts. simpl. lia.
  - destruct (decide (row_source g = src ∧ row_status g = st)) as [[Hs Ht]|Hne].
    + rewrite !counted_cons.
      assert (Hg : P g ↔ P {| row_source := src; row_status := st; count := 1 |}).
      { apply Hpair. unfold groupKey. simpl. by rewrite Hs, Ht. }
      assert (Hg' : P {| row_source := src; row_status := st; count := count g + 1 |}
                    ↔ P {| row_source := src; row_status := st; count := 1 |}).
      { by apply Hpair. }
      repeat destruct (decide _); simpl; try lia; tauto.
    + rewrite !counted_cons, IH. lia.
Qed.

Lemma counted_foldl_tally (docs : list Document) gs :
  counted P (foldl (λ groups d, tally (source d) (Database.status d) groups) gs docs)
  = (counted P gs + Z.of_nat (length (filter (λ d, P (rowOf d)) docs)))%Z.
Proof.
  revert gs. induction docs as [|d docs IH]; intros gs; simpl; [lia|].
  rewrite IH, counted_tally, filter_cons. fold (rowOf d).
  destruct (decide (P (rowOf d))); simpl; lia.
Qed.

(** The aggregate counts, under any test on the pair, the documents of the
    project that pass it. *)
Lemma counted_selectCounts projectId (t : list Document) :
  counted P (selectCounts projectId t)
  = Z.of_nat (length (filter (λ d, P (rowOf d)) (ofProject projectId t))).
Proof.
  unfold selectCounts. fold (ofProject projectId t).
  rewrite counted_foldl_tally. done.
Qed.

End Tally.

Lemma filter_all {A : Type} (l : list A) : filter (λ _, True) l = l.
Proof.
  induction l as [|x l IH]; [done|].
  rewrite filter_cons. simpl. by rewrite IH.
Qed.

Lemma counted_all (rows : list CountRow) : counted (λ _, True) rows = sumCounts rows.
Proof.
  unfold counted. by rewrite filter_all.
Qed.

Lemma tally_key_in k src st gs :
  k ∈ groupKey <$> tally src st gs → k = (src, st) ∨ k ∈ groupKey <$> gs.
Proof.
  induction gs as [|g gs IH]; simpl; intros Hk.
  - apply list_elem_of_singleton in Hk. by left.
  - destruct (decide (row_source g = src ∧ row_status g = st)) as [[Hs Ht]|Hne];
      rewrite ?fmap_cons in Hk; apply elem_of_cons in Hk as [Hk|Hk].
    + by left.
    + right. rewrite ?fmap_cons. by right.
    + right. rewrite ?fmap_cons. subst k. by left.
    + destruct (IH Hk); [by left|]. right. rewrite ?fmap_cons. by right.
Qed.

Lemma tally_keys src st gs :
  NoDup (groupKey <$> gs) → NoDup (groupKey <$> tally src st gs).
Proof.
  induction gs as [|g gs IH]; simpl; intros Hnd.
  - apply NoDup_singleton.
  - rewrite ?fmap_cons in Hnd. apply NoDup_cons in Hnd as [Hg Hnd].
    destruct (decide (row_source g = src ∧ row_status g = st)) as [[Hs Ht]|Hne];
      rewrite ?fmap_cons; apply NoDup_cons.
    + split; [|done].
      unfold groupKey at 1. simpl. unfold groupKey in Hg at 1. by rewrite Hs, Ht in Hg.
    + split; [|by apply IH].
      intros Hk. destruct (tally_key_in _ _ _ _ Hk) as [Hk'|Hk']; [|done].
      apply Hne. unfold groupKey in Hk'. by simplify_eq.
Qed.

Lemma tally_positive src st gs :
  Forall (λ g, (1 ≤ count g)%Z) gs → Forall (λ g, (1 ≤ count g)%Z) (tally src st gs).
Proof.
  induction 1 as [|g gs Hg Hgs IH]; simpl.
  - repeat constructor. simpl. lia.
  - destruct (decide _); constructor; simpl; try done. lia.
Qed.

Lemma selectCounts_groups projectId (t : list Document) :
  NoDup (groupKey <$> selectCounts projectId t)
  ∧ Forall (λ g, (1 ≤ count g)%Z) (selectCounts projectId t).
Proof.
  unfold selectCounts.
  assert (Hgen : ∀ docs gs,
            NoDup (groupKey <$> gs) ∧ Forall (λ g, (1 ≤ count g)%Z) gs →
            NoDup (groupKey <$> foldl (λ groups d, tally (source d) (Database.status d) groups) gs docs)
            ∧ Forall (λ g, (1 ≤ count g)%Z)
                (foldl (λ groups d, tally (source d) (Database.status d) groups) gs docs)).
  { induction docs as [|d docs IH]; intros gs [Hnd Hpos]; simpl; [done|].
    apply IH. split; [by apply tally_keys|by apply tally_positive]. }
  apply Hgen. split; [apply NoDup_nil_2|constructor].
Qed.

(** In a list without two rows of the same pair, the rows of the pair of
    [g] are [g] alone. *)
Lemma counted_own_pair (gs : list CountRow) g :
  NoDup (groupKey <$> gs) → g ∈ gs →
  counted (λ r, groupKey r = groupKey g) gs = count g.
Proof.
  induction gs as [|g' gs IH]; intros Hnd Hg; [by apply elem_of_nil in Hg|].
  csimpl in Hnd. apply NoDup_cons in Hnd as [Hg' Hnd].
  rewrite counted_cons.
  apply elem_of_cons in Hg as [->|Hg].
  - rewrite decide_True by done.
    rewrite counted_none; [lia|].
    intros r Hr Heq. apply Hg'. rewrite <- Heq. by apply list_elem_of_fmap_2.
  - rewrite decide_False, IH by (try done; intros Heq; apply Hg'; rewrite Heq;
                                  by apply list_elem_of_fmap_2).
    lia.
Qed.

(** X15. The aggregate of a project holds one row for each pair of
    [source] and [status] that occurs among the documents of the project,
    and no two rows for the same pair; the count of a row is the number of
    documents of the project with exactly that pair (NULL matching NULL),
    hence at least 1; and the counts add up to the number of documents of
    the project. *)
Theorem selectCounts_groups_project (projectId : string) (t : list Document) :
  let groups := selectCounts projectId t in
  NoDup (groupKey <$> groups)
  ∧ Forall (λ g,
      count g = Z.of_nat (length (paired (row_source g) (row_status g) (ofProject projectId t)))
      ∧ (1 ≤ count g)%Z) groups
  ∧ Forall (λ d, (source d, Database.status d) ∈ groupKey <$> groups) (ofProject projectId t)
  ∧ sumCounts groups = Z.of_nat (length (ofProject projectId t)).
Proof.
  intros groups. subst groups.
  destruct (selectCounts_groups projectId t) as [Hnd Hpos].
  split_and!.
  - done.
  - rewrite List.Forall_forall. intros g Hg. apply list_elem_of_In in Hg.
    split; [|by apply (proj1 (List.Forall_forall _ _) Hpos), list_elem_of_In].
    rewrite <- (counted_own_pair _ _ Hnd Hg).
    rewrite (counted_selectCounts (λ r, groupKey r = groupKey g)).
    + unfold paired, groupKey, rowOf. simpl. do 2 f_equal.
      apply list_filter_iff. intros d. split; [by intros [= -> ->]|by intros [-> ->]].
    + intros g1 g2 Heq. by rewrite Heq.
  - rewrite List.Forall_forall. intros d Hd. apply list_elem_of_In in Hd.
    destruct (decide ((source d, Database.status d) ∈ groupKey <$> selectCounts projectId t))
      as [|Hnot]; [done|exfalso].
    assert (Hzero : counted (λ r, groupKey r = (source d, Database.status d))
                      (selectCounts projectId t) = 0%Z).
    { apply counted_none. intros r Hr Heq. apply Hnot. rewrite <- Heq.
      by apply list_elem_of_fmap_2. }
    rewrite (counted_selectCounts (λ r, groupKey r = (source d, Database.status d))) in Hzero.
    + assert (Hin : d ∈ filter (λ d0, groupKey (rowOf d0) = (source d, Database.status d))
                          (ofProject projectId t)).
      { apply list_elem_of_filter. by split. }
      destruct (filter _ (ofProject projectId t)); [by apply elem_of_nil in Hin|].
      simpl in Hzero. lia.
    + intros g1 g2 Heq. by rewrite Heq.
  - rewrite <- counted_all, (counted_selectCounts (λ _, True)).
    + by rewrite filter_all.
    + done.
Qed.

Lemma plain_pair (g g' : CountRow) : groupKey g = groupKey g' → plain g ↔ plain g'.
Proof.
  unfold groupKey, plain, sourceLabel, statusLabel. by intros [= -> ->].
Qed.

(** Every row of the aggregate stands for the pair of some document of the
    project. *)
Lemma selectCounts_pair_occurs projectId (t : list Document) g :
  g ∈ selectCounts projectId t →
  ∃ d, d ∈ ofProject projectId t ∧ groupKey (rowOf d) = groupKey g.
Proof.
  intros Hg. destruct (selectCounts_groups projectId t) as [Hnd Hpos].
  pose proof (proj1 (List.Forall_forall _ _) Hpos g (proj1 (list_elem_of_In _ _) Hg)) as Hone.
  simpl in Hone.
  rewrite <- (counted_own_pair _ _ Hnd Hg) in Hone.
  rewrite (counted_selectCounts (λ r, groupKey r = groupKey g)) in Hone;
    [|intros g1 g2 Heq; by rewrite Heq].
  destruct (filter _ (ofProject projectId t)) as [|d l] eqn:Hfilter; [simpl in Hone; lia|].
  assert (Hd : d ∈ filter (λ d0, groupKey (rowOf d0) = groupKey g) (ofProject projectId t)).
  { rewrite Hfilter. by left. }
  apply list_elem_of_filter in Hd as [Hkey Hd]. by exists d.
Qed.

(** X16. For a project whose documents carry no source or status label
    that a plain object inherits, with the store reachable, the summary
    route answers 200 and counts documents: [total] is the number of
    documents of the project and the sum of the per-source totals,
    [total_processed] and [total_analysed] are the numbers of its documents
    whose status is [processed], or [analysed] or [analyzed], in any case,
    and each per-source total is the number of its documents with that
    source label. A project without documents gets an empty summary with
    zero totals. *)
Theorem getSummary_counts_documents (pg : Pool) (projectId : string) :
  truthy projectId = true →
  fault pg = None →
  Forall (λ d, plain (rowOf d)) (ofProject projectId (table pg)) →
  let docs := ofProject projectId (table pg) in
  ∃ sources,
    getSummary (Some pg) projectId
    = reply 200 (SummaryBody sources
        (Z.of_nat (length (filter (λ d, isProcessed (rowOf d)) docs)))
        (Z.of_nat (length (filter (λ d, isAnalysed (rowOf d)) docs)))
        (Z.of_nat (length docs)))
    ∧ sumOver total sources = Z.of_nat (length docs)
    ∧ (∀ src e,
         sources !! src = Some e →
         total e = Z.of_nat (length (filter (λ d, fromSource src (rowOf d)) docs)))
    ∧ (docs = [] → sources = ∅).
Proof.
  intros Hid Hfault Hplain docs. subst docs.
  assert (Hrows : Forall plain (selectCounts projectId (table pg))).
  { rewrite List.Forall_forall. intros g Hg. apply list_elem_of_In in Hg.
    destruct (selectCounts_pair_occurs _ _ _ Hg) as (d & Hd & Hkey).
    apply (plain_pair _ _ Hkey).
    by apply (proj1 (List.Forall_forall _ _) Hplain), list_elem_of_In. }
  destruct (loop_plain [] start _ start_summarizes Hrows) as (acc & Hloop & Hacc).
  simpl in Hacc. exists (summary acc).
  rewrite (getSummary_summarize _ _ Hid Hfault). unfold summarize. rewrite Hloop.
  assert (Hall : sumCounts (selectCounts projectId (table pg))
                 = Z.of_nat (length (ofProject projectId (table pg)))).
  { rewrite <- counted_all, (counted_selectCounts (λ _, True)) by done.
    by rewrite filter_all. }
  split_and!.
  - rewrite (sum_all _ _ Hacc), (sum_processed _ _ Hacc), (sum_analysed _ _ Hacc), Hall.
    rewrite (counted_selectCounts isProcessed), (counted_selectCounts isAnalysed); [done| |].
    + intros g g'. unfold groupKey, isAnalysed, statusLabel. by intros [= _ ->].
    + intros g g'. unfold groupKey, isProcessed, statusLabel. by intros [= _ ->].
  - by rewrite (sum_sources _ _ Hacc).
  - intros src e He. rewrite (source_total _ _ Hacc _ _ He).
    apply (counted_selectCounts (fromSource src)).
    intros g g'. unfold groupKey, fromSource, sourceLabel. by intros [= -> _].
  - intros Hnone. unfold selectCounts in Hloop. fold (ofProject projectId (table pg)) in Hloop.
    rewrite Hnone in Hloop. simpl in Hloop. by simplify_eq.
Qed.

Lemma getSummary_counts_documents_witness :
  let docs := ofProject "p1" (table Listing.samplePool) in
  ∃ sources,
    getSummary (Some Listing.samplePool) "p1"
    = reply 200 (SummaryBody sources
        (Z.of_nat (length (filter (λ d, isProcessed (rowOf d)) docs)))
        (Z.of_nat (length (filter (λ d, isAnalysed (rowOf d)) docs)))
        (Z.of_nat (length docs)))
    ∧ sumOver total sources = Z.of_nat (length docs)
    ∧ (∀ src e,
         sources !! src = Some e →
         total e = Z.of_nat (length (filter (λ d, fromSource src (rowOf d)) docs)))
    ∧ (docs = [] → sources = ∅).
Proof.
  apply (getSummary_counts_documents Listing.samplePool "p1").
  - reflexivity.
  - reflexivity.
  - repeat constructor; intros [text Htext]; vm_compute in Htext; discriminate.
Defined.

Lemma loop_app (acc : Totals) (pre rows : list CountRow) :
  loop acc (pre ++ rows)
  = match loop acc pre with
    | Returns acc' => loop acc' rows
    | Throws e => Throws e
    end.
Proof.
  revert acc. induction pre as [|r pre IH]; intros acc; simpl; [done|].
  destruct (step acc r); [apply IH|done].
Qed.

(** X17. When a row of the aggregate has a source label that a plain
    object inherits ([constructor], [toString], [__proto__], ...) and the
    rows before it have none, the loop raises a [TypeError] on that row and
    the summary route answers 500 with its message, not a summary. *)
Theorem summarize_inherited_source (pre post : list CountRow) (r : CountRow) :
  Forall plain pre →
  inherited (sourceLabel r) →
  summarize (pre ++ r :: post)
  = reply 500 (ErrorBody ("Cannot read properties of undefined (reading '"
                            +:+ statusLabel r +:+ "')")).
Proof.
  intros Hpre Hsrc.
  destruct (loop_plain [] start pre start_summarizes Hpre) as (acc & Hloop & Hacc).
  simpl in Hacc. unfold summarize. rewrite loop_app, Hloop. simpl.
  assert (Hnone : summary acc !! sourceLabel r = None).
  { destruct (summary acc !! sourceLabel r) as [e|] eqn:He; [exfalso|done].
    assert (Hsome : is_Some (summary acc !! sourceLabel r)) by (by rewrite He).
    apply (sources_dom _ _ Hacc) in Hsome as (r' & Hr' & Hfrom).
    pose proof (proj1 (List.Forall_forall _ _) Hpre r' (proj1 (list_elem_of_In _ _) Hr'))
      as [Hplain _].
    apply Hplain. unfold fromSource in Hfrom. by rewrite Hfrom. }
  destruct Hsrc as [text Htext].
  unfold step. fold (sourceLabel r) (statusLabel r).
  unfold get. rewrite Hnone, Htext. simpl. rewrite ?Hnone, ?Htext. done.
Qed.

Lemma summarize_inherited_source_witness :
  summarize (exampleRows
             ++ {| row_source := Some "toString"; row_status := None; count := 2 |}
             :: exampleRows)
  = reply 500 (ErrorBody "Cannot read properties of undefined (reading 'unknown')").
Proof.
  apply (summarize_inherited_source exampleRows exampleRows
           {| row_source := Some "toString"; row_status := None; count := 2 |}).
  - repeat constructor; intros [text Htext]; vm_compute in Htext; discriminate.
  - by eexists.
Defined.

(** * Answers of the document routes *)

Lemma selectById_none (pg : Pool) (docId : string) :
  selectById docId (table pg) = [] → unknown pg docId.
Proof.
  unfold selectById, unknown. intros Hnone.
  rewrite List.Forall_forall. intros d Hd Hid.
  assert (Hin : d ∈ filter (λ d0, id d0 = docId) (table pg)).
  { apply list_elem_of_filter. split; [done|by apply list_elem_of_In]. }
  rewrite Hnone in Hin. by apply elem_of_nil in Hin.
Qed.

(** X18. The preview route answers 200 with a [preview_url], or 400, 404 or
    500 with an [error]. It answers 400 only for an empty id and 404 only
    when a pool is configured and no row has the id. It makes at most one
    external call, a signing request for 3600 s, and only with Supabase
    configured; it never writes to a storage backend or to the table. *)
Theorem getPreviewUrl_answers (env : Env) (supabase : option SupabaseClient)
    (pool : option Pool) (docId : string) :
  let o := getPreviewUrl env supabase pool docId in
  ((status (fst o) = 200%Z ∧ ∃ url, json (fst o) = PreviewBody url)
   ∨ ((status (fst o) = 400%Z ∨ status (fst o) = 404%Z ∨ status (fst o) = 500%Z)
      ∧ ∃ e, json (fst o) = ErrorBody e))
  ∧ (status (fst o) = 400%Z → truthy docId = false)
  ∧ (status (fst o) = 404%Z → ∃ pg, pool = Some pg ∧ unknown pg docId)
  ∧ (snd o = []
     ∨ ∃ sb supabaseUrl bucket path,
         snd o = [SupabaseCreateSignedUrl bucket path 3600]
         ∧ supabaseConfigured env supabase sb supabaseUrl bucket).
Proof.
  intros o. subst o. unfold getPreviewUrl, query, previewOf, supabaseConfigured.
  split_and!.
  - repeat case_match; simplify_eq/=; eauto 8.
  - repeat case_match; simplify_eq/=; try done.
    intros _. by apply negb_true_iff.
  - repeat case_match; simplify_eq/=; try done.
    intros _. eexists. split; [done|]. by apply selectById_none.
  - repeat case_match; simplify_eq/=; try (by left);
      right; eexists _, _, _, _; (split; [done|]);
      match goal with H : _ && _ = true |- _ => apply andb_true_iff in H as [? ?] end;
      by split_and!.
Qed.

(** X19. The four document routes check their arguments in the same
    order. An empty id is answered 400 before the store is looked at; with
    an id and no pool the answer is 500 ["DATABASE_URL not configured"];
    and when the store rejects the query the answer is 500 with the store's
    message, the preview route making no signing request. *)
Theorem document_routes_guards (collate : relation string) `{!RelDecision collate}
    (env : Env) (supabase : option SupabaseClient) :
  (∀ pool,
     uploadOrOther collate pool EmptyString = reply 400 (ErrorBody "project_id is required")
     ∧ scraped collate pool EmptyString = reply 400 (ErrorBody "project_id is required")
     ∧ getSummary pool EmptyString = reply 400 (ErrorBody "project_id is required")
     ∧ getPreviewUrl env supabase pool EmptyString
       = (reply 400 (ErrorBody "document_id is required"), []))
  ∧ (∀ c i,
       let id := String c i in
       uploadOrOther collate None id = reply 500 (ErrorBody "DATABASE_URL not configured")
       ∧ scraped collate None id = reply 500 (ErrorBody "DATABASE_URL not configured")
       ∧ getSummary None id = reply 500 (ErrorBody "DATABASE_URL not configured")
       ∧ getPreviewUrl env supabase None id
         = (reply 500 (ErrorBody "DATABASE_URL not configured"), []))
  ∧ (∀ c i t err clock,
       let id := String c i in
       let pg := {| table := t; fault := Some err; Database.clock := clock |} in
       uploadOrOther collate (Some pg) id = reply 500 (ErrorBody err)
       ∧ scraped collate (Some pg) id = reply 500 (ErrorBody err)
       ∧ getSummary (Some pg) id = reply 500 (ErrorBody err)
       ∧ getPreviewUrl env supabase (Some pg) id = (reply 500 (ErrorBody err), [])).
Proof.
  split_and!; try done.
Qed.

(** * An upload followed by the document routes *)

(** What an ["upload successfully"] answer tells about the request and the
    table afterwards. *)
Lemma upload_registered (p : Process) (fb : Firebase.State) (pg : Pool)
    (req : Request) (i message name url : string) :
  Server.json (response (upload p fb (Some pg) req)) = UploadedBody i message name url →
  ∃ f projectId,
    file req = Some f
    ∧ projectIdOf req = Some projectId
    ∧ truthy projectId = true
    ∧ fault pg = None
    ∧ i = uuid p
    ∧ name = dest p f
    ∧ pool_after (upload p fb (Some pg) req)
      = Some {| table := table pg ++
                  [ {| id := uuid p; project_id := projectId;
                       filename := Some (originalname f);
                       file_path := Some (dest p f);
                       source := Some "Upload"; Database.status := Some "pending";
                       document_content := None; created_at := clock pg |} ];
                fault := None; clock := clock pg |}.
Proof.
  unfold projectIdOf, dest. intros Hbody.
  upload_cases; eexists _, _; split_and!; try done.
  by apply negb_false_iff.
Qed.

Section Registered.

Context (collate : relation string) `{!RelDecision collate}.

(** X20. After an upload answered ["upload successfully"], the
    upload-or-other listing of the request's project answers 200 with a
    list that holds a row with the returned [document_id], the stored name
    as [file_path] and the project id; every row listed before is still
    listed; the scraped listings of all projects and the upload-or-other
    listings of the other projects are as before. *)
Theorem uploaded_document_is_listed (p : Process) (fb : Firebase.State) (pg : Pool)
    (req : Request) (i message name url : string) :
  Server.json (response (upload p fb (Some pg) req)) = UploadedBody i message name url →
  let after := pool_after (upload p fb (Some pg) req) in
  ∃ projectId before docs row,
    projectIdOf req = Some projectId
    ∧ uploadOrOther collate (Some pg) projectId = reply 200 (DocumentsBody before)
    ∧ uploadOrOther collate after projectId = reply 200 (DocumentsBody docs)
    ∧ row ∈ docs
    ∧ id row = i ∧ project_id row = projectId ∧ file_path row = Some name
    ∧ docs ≡ₚ row :: before
    ∧ (∀ q, scraped collate after q = scraped collate (Some pg) q)
    ∧ (∀ q, q ≠ projectId →
         uploadOrOther collate after q = uploadOrOther collate (Some pg) q).
Proof.
  intros Hbody after. subst after.
  destruct (upload_registered _ _ _ _ _ _ _ _ Hbody)
    as (f & projectId & Hfile & Hproject & Hid & Hfault & -> & -> & ->).
  set (row := {| id := uuid p; project_id := projectId;
                 filename := Some (originalname f); file_path := Some (dest p f);
                 source := Some "Upload"; Database.status := Some "pending";
                 document_content := None; created_at := clock pg |}).
  assert (Hdocs : selectUploadOrOther collate projectId (table pg ++ [row])
                  ≡ₚ row :: selectUploadOrOther collate projectId (table pg)).
  { unfold selectUploadOrOther. rewrite !merge_sort_Permutation, filter_app.
    rewrite (filter_cons_True _ row); [|by split]. simpl.
    by rewrite <- Permutation_cons_append. }
  exists projectId, (selectUploadOrOther collate projectId (table pg)),
    (selectUploadOrOther collate projectId (table pg ++ [row])), row.
  unfold uploadOrOther, scraped, query. simpl. rewrite Hid, Hfault. simpl.
  split_and!; try done.
  - rewrite Hdocs. by left.
  - intros q. destruct (negb (truthy q)); [done|].
    unfold selectScraped. rewrite filter_app.
    rewrite (filter_cons_False _ row); [|by intros [_ ?]]. simpl.
    by rewrite app_nil_r.
  - intros q Hq. destruct (negb (truthy q)); [done|].
    unfold selectUploadOrOther. rewrite filter_app.
    rewrite (filter_cons_False _ row); [|intros [? _]; by apply Hq]. simpl.
    by rewrite app_nil_r.
Qed.

End Registered.

Lemma uploaded_document_is_listed_witness :
  let p := Samples.processWith Samples.noCredentials (Some Samples.client) in
  let req := Samples.requestFor (Some "p1") in
  let after := pool_after (upload p Firebase.initial (Some Listing.samplePool) req) in
  ∃ projectId before docs row,
    projectIdOf req = Some projectId
    ∧ uploadOrOther String.le (Some Listing.samplePool) projectId
      = reply 200 (DocumentsBody before)
    ∧ uploadOrOther String.le after projectId
      = reply 200 (DocumentsBody docs)
    ∧ row ∈ docs
    ∧ id row = uuid p ∧ project_id row = projectId
    ∧ file_path row = Some "1700000000000_report.pdf"
    ∧ docs ≡ₚ row :: before
    ∧ (∀ q, scraped String.le after q
            = scraped String.le (Some Listing.samplePool) q)
    ∧ (∀ q, q ≠ projectId →
         uploadOrOther String.le after q
         = uploadOrOther String.le (Some Listing.samplePool) q).
Proof.
  intros p req.
  apply (uploaded_document_is_listed String.le p Firebase.initial
           Listing.samplePool req (uuid p) "upload successfully"
           "1700000000000_report.pdf"
           "https://signed/policies/1700000000000_report.pdf").
  vm_compute. reflexivity.
Defined.

(** X21. After an upload answered ["upload successfully"] with a
    [document_id] that no earlier row carries, the preview route finds the
    new row for that id: it never answers 400 or 404, and what it answers
    is the preview of the uploaded file's original name, not of the stored
    name the upload returned. *)
Theorem uploaded_document_is_previewed (p : Process) (fb : Firebase.State) (pg : Pool)
    (req : Request) (i message name url : string)
    (env' : Env) (supabase' : option SupabaseClient) :
  Server.json (response (upload p fb (Some pg) req)) = UploadedBody i message name url →
  unknown pg i →
  truthy i = true →
  let answer := getPreviewUrl env' supabase' (pool_after (upload p fb (Some pg) req)) i in
  ∃ f row,
    file req = Some f
    ∧ answer = previewOf env' supabase' row
    ∧ id row = i
    ∧ filename row = Some (originalname f)
    ∧ file_path row = Some name
    ∧ name = storedName (now_request p) (originalname f)
    ∧ status (fst answer) ≠ 400%Z
    ∧ status (fst answer) ≠ 404%Z
    ∧ Forall (signsPath (normalize (originalname f))) (snd answer).
Proof.
  intros Hbody Hfresh Htruthy answer. subst answer.
  destruct (upload_registered _ _ _ _ _ _ _ _ Hbody)
    as (f & projectId & Hfile & Hproject & Hid & Hfault & -> & -> & ->).
  set (row := {| id := uuid p; project_id := projectId;
                 filename := Some (originalname f); file_path := Some (dest p f);
                 source := Some "Upload"; Database.status := Some "pending";
                 document_content := None; created_at := clock pg |}).
  assert (Hfound : getPreviewUrl env' supabase'
                     (Some {| table := table pg ++ [row]; fault := None; clock := clock pg |})
                     (uuid p)
                   = previewOf env' supabase' row).
  { apply (getPreviewUrl_found _ _ _ _ row []); [done|done|]. simpl.
    unfold selectById. rewrite filter_app.
    fold (selectById (uuid p) (table pg)). rewrite (selectById_unknown _ _ Hfresh).
    by rewrite (filter_cons_True _ row). }
  exists f, row. rewrite Hfound.
  split_and!; try done.
  - unfold previewOf. repeat case_match; simplify_eq/=; done.
  - unfold previewOf. repeat case_match; simplify_eq/=; done.
  - unfold previewOf. simpl.
    repeat case_match; simplify_eq/=; repeat constructor;
      by destruct (originalname f).
Qed.

Lemma uploaded_document_is_previewed_witness :
  let p := Samples.processWith Samples.noCredentials (Some Samples.client) in
  let req := Samples.requestFor (Some "p1") in
  let answer := getPreviewUrl Samples.environment (Some Samples.client)
                  (pool_after (upload p Firebase.initial (Some Listing.samplePool) req))
                  (uuid p) in
  ∃ f row,
    file req = Some f
    ∧ answer = previewOf Samples.environment (Some Samples.client) row
    ∧ id row = uuid p
    ∧ filename row = Some (originalname f)
    ∧ file_path row = Some "1700000000000_report.pdf"
    ∧ "1700000000000_report.pdf" = storedName (now_request p) (originalname f)
    ∧ status (fst answer) ≠ 400%Z
    ∧ status (fst answer) ≠ 404%Z
    ∧ Forall (signsPath (normalize (originalname f))) (snd answer).
Proof.
  intros p req.
  apply (uploaded_document_is_previewed p Firebase.initial Listing.samplePool req
           (uuid p) "upload successfully" "1700000000000_report.pdf"
           "https://signed/policies/1700000000000_report.pdf"
           Samples.environment (Some Samples.client)).
  - vm_compute. reflexivity.
  - unfold unknown. simpl. repeat constructor; discriminate.
  - reflexivity.
Defined.
